(** * Happy MCP server ([startHappyServer.ts])

    A shallow embedding of
    [packages/happy-cli/src/claude/utils/startHappyServer.ts]: the
    [change_title] tool, the per-request HTTP handler and the start/stop
    life cycle of the loopback listener, with the properties of its
    specification.

    JavaScript effects are modelled by a state monad over a [World]
    (everything the module can observe or change) whose computations
    complete with a value, with a thrown JavaScript value, or never
    (a promise that is awaited and never settles). *)

From Stdlib Require Import String Ascii List Bool Arith NArith Lia Permutation.
From Stdlib Require Import DecimalString DecimalPos DecimalN.
Import ListNotations.
Local Open Scope list_scope.
Local Open Scope string_scope.

(* ===================================================================== *)
(** ** JavaScript values that can be thrown, and [String(...)] *)
(* ===================================================================== *)

Module Js.

(** The values a [catch (error)] clause can receive here: primitives,
    [Error] objects (with their [name] and [message] properties), plain
    objects that inherit [Object.prototype.toString], and objects without
    any [toString] or [valueOf] to call, such as [Object.create(null)]. *)
Inductive JsValue : Type :=
| JUndefined
| JNull
| JBool (b : bool)
| JString (s : string)
| JError (name message : string)
| JObject
| JBareObject.

(** [Error.prototype.toString]: the name alone when the message is empty,
    the message alone when the name is empty, [name: message] otherwise. *)
Definition error_toString (name message : string) : string :=
  if String.eqb name "" then message
  else if String.eqb message "" then name
  else name ++ ": " ++ message.

(** The conversion [String(v)]: the string it returns, or [None] when it
    throws because the object cannot be converted to a primitive. *)
Definition String_ (v : JsValue) : option string :=
  match v with
  | JUndefined => Some "undefined"
  | JNull => Some "null"
  | JBool true => Some "true"
  | JBool false => Some "false"
  | JString s => Some s
  | JError name message => Some (error_toString name message)
  | JObject => Some "[object Object]"
  | JBareObject => None
  end.

(** The [TypeError] a failed conversion throws. *)
Definition cannot_convert : JsValue :=
  JError "TypeError" "Cannot convert object to primitive value".

(** [new Error(message)]. *)
Definition new_Error (message : string) : JsValue := JError "Error" message.

(** [a || b] where [a] is a string-or-undefined property: the empty string
    and [undefined] are the falsy ones. *)
Definition or_else (a : option string) (b : string) : string :=
  match a with
  | Some s => if String.eqb s "" then b else s
  | None => b
  end.

End Js.
Import Js.

(* ===================================================================== *)
(** ** The world and the effect monad *)
(* ===================================================================== *)

(** The body handed to [client.sendClaudeSessionMessage]. *)
Record SessionMessage : Type := mkMessage {
  type : string;
  summary : string;
  leafUuid : string
}.

(** The record the inner [handler] returns: [{ success: true }] or
    [{ success: false, error: String(error) }]. *)
Record HandlerResponse : Type := mkResponse {
  success : bool;
  error : option string
}.

(** One call of [logger.debug]. *)
Inductive LogEntry : Type :=
| LogStart (sessionId : string)
| LogChangingTitle (prefixedTitle : string)
| LogResponse (response : HandlerResponse)
| LogRequestError (error : JsValue)
| LogReady (sessionId url : string)
| LogStop (sessionId : string).

(** The [http.ServerResponse] of the request being served. *)
Record ServerResponse : Type := mkRes {
  headersSent : bool;
  statusCode : nat;
  body : string;
  finished : bool
}.

(** The [http.Server] created by [createServer]. *)
Inductive ServerState : Type :=
| NoServer
| Created
| Listening (port : N)
| Closed.

Record World : Type := mkWorld {
  (** number of [randomUUID()] calls made so far *)
  uuids_drawn : nat;
  (** bodies passed to [client.sendClaudeSessionMessage], oldest first *)
  sent : list SessionMessage;
  (** [logger.debug] calls, oldest first *)
  log : list LogEntry;
  (** identity given to the next object built with [new] *)
  next_object : nat;
  (** the (registry, transport) pairs joined by [mcp.connect(transport)] *)
  connections : list (nat * nat);
  (** the response object of the request in progress *)
  res : ServerResponse;
  (** the listener *)
  server : ServerState;
  (** calls of [server.listen] *)
  listen_calls : nat;
  (** ['error'] events emitted with no listener registered, and exceptions
      thrown inside event callbacks: they reach nobody's [catch] *)
  uncaught : list JsValue
}.

(** How a computation ends. *)
Inductive Completion (A : Type) : Type :=
| Val (a : A)
| Exn (e : JsValue)
| Hang.
Arguments Val {A} a.
Arguments Exn {A} e.
Arguments Hang {A}.

Definition M (A : Type) : Type := World -> Completion A * World.

Definition ret {A} (a : A) : M A := fun w => (Val a, w).

Definition bind {A B} (c : M A) (k : A -> M B) : M B :=
  fun w =>
    match c w with
    | (Val a, w') => k a w'
    | (Exn e, w') => (Exn e, w')
    | (Hang, w') => (Hang, w')
    end.

Definition throw {A} (e : JsValue) : M A := fun w => (Exn e, w).

Definition hang {A} : M A := fun w => (Hang, w).

(** [try { body } catch (error) { recover error }]: the effects of the
    body up to the throw stay. *)
Definition try_catch {A} (body : M A) (recover : JsValue -> M A) : M A :=
  fun w =>
    match body w with
    | (Exn e, w') => recover e w'
    | r => r
    end.

Definition gets {A} (f : World -> A) : M A := fun w => (Val (f w), w).

Definition modify (f : World -> World) : M unit := fun w => (Val tt, f w).

Declare Scope js_scope.
Delimit Scope js_scope with js.
Notation "x <- c ;; k" := (bind c (fun x => k))
  (at level 61, c at next level, right associativity) : js_scope.
Notation "c ;;; k" := (bind c (fun _ => k))
  (at level 61, right associativity) : js_scope.
Local Open Scope js_scope.

(** Field updates of the world. *)
Definition set_uuids_drawn (n : nat) (w : World) : World :=
  mkWorld n (sent w) (log w) (next_object w) (connections w)
          (res w) (server w) (listen_calls w) (uncaught w).
Definition set_sent (l : list SessionMessage) (w : World) : World :=
  mkWorld (uuids_drawn w) l (log w) (next_object w) (connections w)
          (res w) (server w) (listen_calls w) (uncaught w).
Definition set_log (l : list LogEntry) (w : World) : World :=
  mkWorld (uuids_drawn w) (sent w) l (next_object w) (connections w)
          (res w) (server w) (listen_calls w) (uncaught w).
Definition set_next_object (n : nat) (w : World) : World :=
  mkWorld (uuids_drawn w) (sent w) (log w) n (connections w)
          (res w) (server w) (listen_calls w) (uncaught w).
Definition set_connections (l : list (nat * nat)) (w : World) : World :=
  mkWorld (uuids_drawn w) (sent w) (log w) (next_object w) l
          (res w) (server w) (listen_calls w) (uncaught w).
Definition set_res (r : ServerResponse) (w : World) : World :=
  mkWorld (uuids_drawn w) (sent w) (log w) (next_object w) (connections w)
          r (server w) (listen_calls w) (uncaught w).
Definition set_server (s : ServerState) (w : World) : World :=
  mkWorld (uuids_drawn w) (sent w) (log w) (next_object w) (connections w)
          (res w) s (listen_calls w) (uncaught w).
Definition set_listen_calls (n : nat) (w : World) : World :=
  mkWorld (uuids_drawn w) (sent w) (log w) (next_object w) (connections w)
          (res w) (server w) n (uncaught w).
Definition set_uncaught (l : list JsValue) (w : World) : World :=
  mkWorld (uuids_drawn w) (sent w) (log w) (next_object w) (connections w)
          (res w) (server w) (listen_calls w) l.

(** [logger.debug(...)]. *)
Definition logger_debug (entry : LogEntry) : M unit :=
  modify (fun w => set_log (log w ++ [entry]) w).

(* ===================================================================== *)
(** ** The collaborators: operating system, session client, MCP SDK *)
(* ===================================================================== *)

(** What [server.listen(0, "127.0.0.1", cb)] leads to: the ['listening']
    event with the port the OS assigned, or an ['error'] event. *)
Inductive ListenOutcome : Type :=
| Bound (port : N)
| BindFails (e : JsValue).

(** The operating system and runtime, as far as the module reads them. *)
Record Env : Type := mkEnv {
  (** [os.hostname()] *)
  hostname : string;
  (** the successive results of [crypto.randomUUID()] *)
  uuid_supply : nat -> string;
  listen_outcome : ListenOutcome
}.

(** The fate of a promise. *)
Inductive PromiseFate : Type :=
| Fulfils
| Rejects (reason : JsValue)
| NeverSettles.

(** What one call of [client.sendClaudeSessionMessage(body)] does, seen
    from the caller: it returns (nothing, or a promise when the client
    delivers asynchronously) or it throws. *)
Inductive SendOutcome : Type :=
| SendReturns
| SendReturnsPromise (fate : PromiseFate)
| SendThrows (e : JsValue).

(** [ApiSessionClient]: its session identifier and the behaviour of its
    send method, which may depend on what it was sent before. *)
Record ApiSessionClient : Type := mkClient {
  sessionId : string;
  sendClaudeSessionMessage :
    list SessionMessage -> SessionMessage -> SendOutcome
}.

(** Whether the delivery attempt behind a send succeeded. *)
Definition delivered (o : SendOutcome) : bool :=
  match o with
  | SendReturns => true
  | SendReturnsPromise Fulfils => true
  | _ => false
  end.

(** Whether the delivery attempt behind a send has an outcome at all. *)
Definition settled (o : SendOutcome) : bool :=
  match o with
  | SendReturnsPromise NeverSettles => false
  | _ => true
  end.

(** The result of a tool, in the protocol's shape. *)
Record ContentBlock : Type := mkBlock {
  block_type : string;
  text : string
}.

Record CallToolResult : Type := mkResult {
  content : list ContentBlock;
  isError : bool
}.

(** The validated arguments of [change_title]. *)
Record ChangeTitleArgs : Type := mkArgs {
  title : string
}.

(** [z.string().describe(...)]. *)
Inductive ZodType : Type :=
| ZString (description : string).

Record RegisteredTool : Type := mkTool {
  tool_description : string;
  tool_title : string;
  inputSchema : list (string * ZodType);
  callback : ChangeTitleArgs -> M CallToolResult
}.

Record McpServer : Type := mkMcp {
  mcp_id : nat;
  mcp_name : string;
  mcp_version : string;
  tools : list (string * RegisteredTool)
}.

Record StreamableHTTPServerTransport : Type := mkTransport {
  transport_id : nat;
  sessionIdGenerator : option (nat -> string)
}.

(** What the transport learns from asking the registry to run a tool. *)
Inductive ToolCallOutcome : Type :=
| ToolReturned (r : CallToolResult)
| ToolRefused
| ToolThrew (e : JsValue).

(** What [transport.handleRequest(req, res)] does with one request: it
    writes to [res], asks the registry to call tools, and its promise
    fulfils, rejects or stays pending. *)
Inductive Script : Type :=
| Finish
| Fail (e : JsValue)
| Stall
| WriteHead (status : nat) (k : Script)
| Write (chunk : string) (k : Script)
| EndResponse (k : Script)
| CallTool (name : string) (title_arg : JsValue) (k : ToolCallOutcome -> Script).

(** One inbound HTTP request together with the SDK's reaction to it. *)
Record Exchange : Type := mkExchange {
  (** [new McpServer(...)] throws this *)
  mcp_constructor_throws : option JsValue;
  (** [new StreamableHTTPServerTransport(...)] throws this *)
  transport_constructor_throws : option JsValue;
  (** how the promise of [mcp.connect(transport)] ends *)
  connect_outcome : Completion unit;
  handleRequest_script : Script
}.

(* ===================================================================== *)
(** ** Numbers in template strings, and the [URL] class *)
(* ===================================================================== *)

(** [`${n}`] for a non-negative integer: its decimal numeral. *)
Definition decimal (n : N) : string := NilEmpty.string_of_uint (N.to_uint n).

Module Url.

(** A parsed URL: the components the serializer prints. The model covers
    the absolute URLs [scheme://host[:port][/path]] of the special schemes,
    without credentials, query or fragment, and with a host already in its
    canonical form; this is the shape of the one string the module parses. *)
Record URL : Type := mkURL {
  scheme : string;
  host : string;
  port : option N;
  pathname : string
}.

(** The default port of a special scheme. *)
Definition default_port (scheme : string) : option N :=
  if String.eqb scheme "http" then Some 80%N
  else if String.eqb scheme "https" then Some 443%N
  else if String.eqb scheme "ws" then Some 80%N
  else if String.eqb scheme "wss" then Some 443%N
  else if String.eqb scheme "ftp" then Some 21%N
  else None.

(** Cuts [s] at the first [c]: the part before it and, when [c] occurs,
    the part after it. *)
Fixpoint split_at (c : ascii) (s : string) : string * option string :=
  match s with
  | EmptyString => (EmptyString, None)
  | String a rest =>
      if Ascii.eqb a c then (EmptyString, Some rest)
      else let (before, after) := split_at c rest in (String a before, after)
  end.

(** The port state of the parser: no digits leave the port null, a numeral
    above 65535 is a failure, the scheme's default port is dropped. *)
Definition parse_port (scheme digits : string) : option (option N) :=
  match NilEmpty.uint_of_string digits with
  | None => None
  | Some d =>
      if String.eqb digits "" then Some None
      else
        let n := N.of_uint d in
        if (65535 <? n)%N then None
        else if match default_port scheme with
                | Some p => N.eqb p n
                | None => false
                end
             then Some None
             else Some (Some n)
  end.

(** [new URL(input)]; [None] stands for the [TypeError] of a failed parse. *)
Definition parse (input : string) : option URL :=
  match split_at ":" input with
  | (sch, Some (String "/" (String "/" rest))) =>
      match default_port sch with
      | None => None
      | Some _ =>
          let (authority, path) := split_at "/" rest in
          let (h, digits) := split_at ":" authority in
          if String.eqb h "" then None
          else
            match parse_port sch (match digits with Some d => d | None => "" end) with
            | None => None
            | Some p =>
                Some (mkURL sch h p
                            (match path with
                             | Some q => "/" ++ q
                             | None => "/"
                             end))
            end
      end
  | _ => None
  end.

(** [url.toString()], the URL serializer. *)
Definition toString (u : URL) : string :=
  scheme u ++ "://" ++ host u
    ++ match port u with
       | Some p => ":" ++ decimal p
       | None => ""
       end
    ++ pathname u.

End Url.

(* ===================================================================== *)
(** ** Node's [http.ServerResponse] and [http.Server] *)
(* ===================================================================== *)

Definition add_uncaught (e : JsValue) (w : World) : World :=
  set_uncaught (uncaught w ++ [e]) w.

(** The response object Node hands to the request listener. *)
Definition fresh_response : ServerResponse := mkRes false 200 EmptyString false.

(** [res.writeHead(status)]: throws once the headers are out. *)
Definition res_writeHead (status : nat) : M unit :=
  fun w =>
    if headersSent (res w)
    then (Exn (JError "Error"
                 "Cannot write headers after they are sent to the client"), w)
    else (Val tt, set_res (mkRes true status (body (res w)) (finished (res w))) w).

(** [res.write(chunk)]: sends the implicit headers first when none were
    written; after [end] the chunk is dropped and an ['error'] event is
    emitted on the response. *)
Definition res_write (chunk : string) : M unit :=
  fun w =>
    if finished (res w)
    then (Val tt, add_uncaught (JError "Error" "write after end") w)
    else (Val tt, set_res (mkRes true (statusCode (res w))
                                 (body (res w) ++ chunk) false) w).

(** [res.end()]: sends the implicit headers when none were written. *)
Definition res_end : M unit :=
  fun w =>
    if finished (res w) then (Val tt, w)
    else (Val tt, set_res (mkRes true (statusCode (res w)) (body (res w)) true) w).

(** [createServer(listener)]. *)
Definition createServer : M unit := modify (set_server Created).

(** [server.address()] followed by [.port]: [address()] is null unless the
    server listens. *)
Definition server_address_port : M N :=
  fun w =>
    match server w with
    | Listening p => (Val p, w)
    | _ => (Exn (JError "TypeError" "Cannot read properties of null"), w)
    end.

(** [server.close()]. *)
Definition server_close : M unit :=
  modify (fun w => match server w with
                   | Listening _ => set_server Closed w
                   | _ => w
                   end).

(** [new URL(input)]. *)
Definition new_URL (input : string) : M Url.URL :=
  match Url.parse input with
  | Some u => ret u
  | None => throw (JError "TypeError" "Invalid URL")
  end.

(** [await p] for a promise that was resolved with [a] ([Some a]) or that
    nobody settles ([None]). *)
Definition await {A} (p : option A) : M A :=
  match p with
  | Some a => ret a
  | None => hang
  end.

(** [String(v)] as an expression: it evaluates to the string or throws. *)
Definition js_String (v : JsValue) : M string :=
  match String_ v with
  | Some s => ret s
  | None => throw cannot_convert
  end.

(** The double quote character. *)
Definition dquote : string := String (ascii_of_nat 34) EmptyString.

(* ===================================================================== *)
(** ** The module: [startHappyServer(client)] and its closures *)
(* ===================================================================== *)

Record Handle : Type := mkHandle {
  url : string;
  toolNames : list string;
  stop : M unit
}.

Section Gateway.

Variable env : Env.
Variable client : ApiSessionClient.

(** [hostname()] of [node:os]. *)
Definition os_hostname : M string := ret (hostname env).

(** [randomUUID()] of [node:crypto]. *)
Definition randomUUID : M string :=
  fun w => (Val (uuid_supply env (uuids_drawn w)),
            set_uuids_drawn (S (uuids_drawn w)) w).

(** [client.sendClaudeSessionMessage(body)]: the value it returns is the
    promise of an asynchronous delivery, if any. *)
Definition client_send (body : SessionMessage) : M (option PromiseFate) :=
  fun w =>
    let w' := set_sent (sent w ++ [body]) w in
    match sendClaudeSessionMessage client (sent w) body with
    | SendReturns => (Val None, w')
    | SendReturnsPromise fate => (Val (Some fate), w')
    | SendThrows e => (Exn e, w')
    end.

(** An expression statement: its value is dropped. A dropped promise that
    rejects later is an unhandled rejection. *)
Definition discard (v : option PromiseFate) : M unit :=
  match v with
  | Some (Rejects reason) => modify (add_uncaught reason)
  | _ => ret tt
  end.

(** [handler] (lines 23-38). *)
Definition handler (title : string) : M HandlerResponse :=
  h <- os_hostname ;;
  let prefixedTitle := "[" ++ h ++ "] " ++ title in
  logger_debug (LogChangingTitle prefixedTitle) ;;;
  try_catch
    (u <- randomUUID ;;
     v <- client_send (mkMessage "summary" prefixedTitle u) ;;
     discard v ;;;
     ret (mkResponse true None))
    (fun error =>
       reason <- js_String error ;;
       ret (mkResponse false (Some reason))).

(** The callback registered for [change_title] (lines 57-82). *)
Definition change_title_callback (args : ChangeTitleArgs) : M CallToolResult :=
  response <- handler (title args) ;;
  logger_debug (LogResponse response) ;;;
  if success response
  then ret (mkResult
              [mkBlock "text"
                 ("Successfully changed chat title to: "
                    ++ dquote ++ title args ++ dquote)]
              false)
  else ret (mkResult
              [mkBlock "text"
                 ("Failed to change chat title: "
                    ++ or_else (error response) "Unknown error")]
              true).

(** [new McpServer({ name, version })]. *)
Definition new_McpServer (req : Exchange) (name version : string) : M McpServer :=
  fun w =>
    match mcp_constructor_throws req with
    | Some e => (Exn e, w)
    | None => (Val (mkMcp (next_object w) name version []),
               set_next_object (S (next_object w)) w)
    end.

(** [mcp.registerTool(name, config, cb)]: a name can be registered once. *)
Definition registerTool (mcp : McpServer) (name : string) (tool : RegisteredTool)
  : M McpServer :=
  if existsb (String.eqb name) (map fst (tools mcp))
  then throw (new_Error ("Tool " ++ name ++ " is already registered"))
  else ret (mkMcp (mcp_id mcp) (mcp_name mcp) (mcp_version mcp)
                  (tools mcp ++ [(name, tool)])).

(** [createMcpServer] (lines 45-85). *)
Definition createMcpServer (req : Exchange) : M McpServer :=
  mcp <- new_McpServer req "Happy MCP" "1.0.0" ;;
  mcp <- registerTool mcp "change_title"
           (mkTool "Change the title of the current chat session"
                   "Change Chat Title"
                   [("title", ZString "The new title for the chat session")]
                   change_title_callback) ;;
  ret mcp.

(** [new StreamableHTTPServerTransport({ sessionIdGenerator })]. *)
Definition new_StreamableHTTPServerTransport
    (req : Exchange) (generator : option (nat -> string))
  : M StreamableHTTPServerTransport :=
  fun w =>
    match transport_constructor_throws req with
    | Some e => (Exn e, w)
    | None => (Val (mkTransport (next_object w) generator),
               set_next_object (S (next_object w)) w)
    end.

(** [await mcp.connect(transport)]. *)
Definition mcp_connect (req : Exchange) (mcp : McpServer)
    (transport : StreamableHTTPServerTransport) : M unit :=
  fun w =>
    match connect_outcome req with
    | Val _ => (Val tt, set_connections
                          (connections w ++ [(mcp_id mcp, transport_id transport)]) w)
    | Exn e => (Exn e, w)
    | Hang => (Hang, w)
    end.

(** The registry validates the arguments of a call against the tool's
    input schema: [title] must be a string. *)
Definition parse_args (schema : list (string * ZodType)) (title_arg : JsValue)
  : option ChangeTitleArgs :=
  match schema, title_arg with
  | [(_, ZString _)], JString s => Some (mkArgs s)
  | _, _ => None
  end.

Fixpoint find_tool (name : string) (l : list (string * RegisteredTool))
  : option RegisteredTool :=
  match l with
  | [] => None
  | (n, t) :: rest => if String.eqb n name then Some t else find_tool name rest
  end.

(** A [tools/call] request reaching the registry: an unknown tool or
    invalid arguments are refused without running any callback; what the
    callback returns or throws is handed to the transport, which decides
    what to answer. *)
Definition call_tool (mcp : McpServer) (name : string) (title_arg : JsValue)
  : M ToolCallOutcome :=
  match find_tool name (tools mcp) with
  | None => ret ToolRefused
  | Some t =>
      match parse_args (inputSchema t) title_arg with
      | None => ret ToolRefused
      | Some args =>
          try_catch (r <- callback t args ;; ret (ToolReturned r))
                    (fun e => ret (ToolThrew e))
      end
  end.

(** [await transport.handleRequest(req, res)] for a transport connected to
    [mcp]. *)
Fixpoint run_script (mcp : McpServer) (s : Script) : M unit :=
  match s with
  | Finish => ret tt
  | Fail e => throw e
  | Stall => hang
  | WriteHead status k => res_writeHead status ;;; run_script mcp k
  | Write chunk k => res_write chunk ;;; run_script mcp k
  | EndResponse k => res_end ;;; run_script mcp k
  | CallTool name title_arg k =>
      r <- call_tool mcp name title_arg ;; run_script mcp (k r)
  end.

Definition transport_handleRequest (transport : StreamableHTTPServerTransport)
    (mcp : McpServer) (req : Exchange) : M unit :=
  run_script mcp (handleRequest_script req).

(** The body of the [try] of the request listener (lines 93-98). *)
Definition request_body (req : Exchange) : M unit :=
  mcp <- createMcpServer req ;;
  transport <- new_StreamableHTTPServerTransport req None ;;
  mcp_connect req mcp transport ;;;
  transport_handleRequest transport mcp req.

(** The request listener given to [createServer] (lines 91-105). *)
Definition requestHandler (req : Exchange) : M unit :=
  try_catch
    (request_body req)
    (fun error =>
       logger_debug (LogRequestError error) ;;;
       headers_sent <- gets (fun w => headersSent (res w)) ;;
       if negb headers_sent
       then res_writeHead 500 ;;; res_end
       else ret tt).

(** Node calls the listener for a request with a response object of its
    own. *)
Definition dispatch (req : Exchange) : M unit :=
  modify (set_res fresh_response) ;;; requestHandler req.

(** The requests of a run, one after the other: how each listener call
    ended and the response it left. A listener that never finishes does not
    keep the next request from being served. *)
Fixpoint serve (reqs : list Exchange) (w : World)
  : list (Completion unit * ServerResponse) * World :=
  match reqs with
  | [] => ([], w)
  | req :: rest =>
      let (c, w1) := dispatch req w in
      let (answers, w2) := serve rest w1 in
      ((c, res w1) :: answers, w2)
  end.

(** [server.listen(0, "127.0.0.1", callback)] inside
    [new Promise((resolve) => ...)]: the callback is a listener of the
    ['listening'] event and returns what it resolves the promise with. The
    result is the state of the promise: resolved with a value, or pending.
    The code registers no listener for ['error'], so a failed bind is an
    unhandled ['error'] event; an exception thrown by the callback is
    thrown inside an event listener. *)
Definition server_listen {A} (listening_callback : M A) : M (option A) :=
  fun w =>
    let w1 := set_listen_calls (S (listen_calls w)) w in
    match listen_outcome env with
    | Bound port =>
        match listening_callback (set_server (Listening port) w1) with
        | (Val a, w2) => (Val (Some a), w2)
        | (Exn e, w2) => (Val None, add_uncaught e w2)
        | (Hang, w2) => (Val None, w2)
        end
    | BindFails e => (Val None, add_uncaught e w1)
    end.

(** The [stop] closure of the handle (lines 119-122). *)
Definition stop_server : M unit :=
  logger_debug (LogStop (sessionId client)) ;;;
  server_close.

(** [startHappyServer] (lines 19-124). *)
Definition startHappyServer : M Handle :=
  logger_debug (LogStart (sessionId client)) ;;;
  createServer ;;;
  promise <- server_listen
               (addr_port <- server_address_port ;;
                new_URL ("http://127.0.0.1:" ++ decimal addr_port)) ;;
  baseUrl <- await promise ;;
  logger_debug (LogReady (sessionId client) (Url.toString baseUrl)) ;;;
  ret (mkHandle (Url.toString baseUrl) ["change_title"] stop_server).

End Gateway.

(* ===================================================================== *)
(** ** Sample collaborators *)
(* ===================================================================== *)

Definition sample_env : Env :=
  mkEnv "myhost" (fun n => "uuid-" ++ decimal (N.of_nat n)) (Bound 54321).

Definition initial_world : World :=
  mkWorld 0 [] [] 0 [] fresh_response NoServer 0 [].

(** A client whose send returns at once. *)
Definition sync_client : ApiSessionClient :=
  mkClient "session-1" (fun _ _ => SendReturns).

(** A client whose send throws [new Error("socket closed")]. *)
Definition broken_client : ApiSessionClient :=
  mkClient "session-2" (fun _ _ => SendThrows (new_Error "socket closed")).

(** A client that delivers asynchronously and whose delivery fails. *)
Definition async_failing_client : ApiSessionClient :=
  mkClient "session-3"
    (fun _ _ => SendReturnsPromise (Rejects (new_Error "offline"))).

(** A client that throws [Object.create(null)]. *)
Definition bare_client : ApiSessionClient :=
  mkClient "session-5" (fun _ _ => SendThrows JBareObject).

(** A client that throws [new Error("")]. *)
Definition terse_client : ApiSessionClient :=
  mkClient "session-6" (fun _ _ => SendThrows (new_Error EmptyString)).

(** A client that throws the empty string. *)
Definition mute_client : ApiSessionClient :=
  mkClient "session-4" (fun _ _ => SendThrows (JString EmptyString)).

(** A [tools/call] of [change_title] answered with the tool's text. *)
Definition tool_call_exchange (title_arg : JsValue) : Exchange :=
  mkExchange None None (Val tt)
    (CallTool "change_title" title_arg
       (fun r =>
          WriteHead 200
            (Write (match r with
                    | ToolReturned result =>
                        match content result with
                        | b :: _ => text b
                        | [] => EmptyString
                        end
                    | ToolRefused => "invalid request"
                    | ToolThrew _ => "internal error"
                    end)
               (EndResponse Finish)))).

(** An operating system that cannot give the listener a socket. *)
Definition exhausted_env : Env :=
  mkEnv "myhost" (fun n => "uuid-" ++ decimal (N.of_nat n))
        (BindFails (new_Error "listen EMFILE: too many open files")).

(** A request for which the transport cannot be built. *)
Definition failing_exchange : Exchange :=
  mkExchange None (Some (new_Error "no transport")) (Val tt) Finish.

(* ===================================================================== *)
(** ** Vocabulary of the properties *)
(* ===================================================================== *)

(** The message a [change_title] call with [ttl] builds in world [w]: the
    title prefixed with the host name, and the result of the [randomUUID()]
    call made for it. *)
Definition summary_message (env : Env) (ttl : string) (w : World) : SessionMessage :=
  mkMessage "summary" ("[" ++ hostname env ++ "] " ++ ttl)
            (uuid_supply env (uuids_drawn w)).

(** What the client's send does with that message in [w]. *)
Definition send_outcome (env : Env) (client : ApiSessionClient) (ttl : string)
    (w : World) : SendOutcome :=
  sendClaudeSessionMessage client (sent w) (summary_message env ttl w).

Definition success_text (ttl : string) : string :=
  "Successfully changed chat title to: " ++ dquote ++ ttl ++ dquote.

Definition failure_text (reason : string) : string :=
  "Failed to change chat title: " ++ reason.

(** Executions of the tool body recorded in a log: each one starts with
    the [Changing title to:] line. *)
Fixpoint title_changes (l : list LogEntry) : nat :=
  match l with
  | [] => 0
  | LogChangingTitle _ :: rest => S (title_changes rest)
  | _ :: rest => title_changes rest
  end.

(** The registries and transports that were connected. *)
Definition instances (l : list (nat * nat)) : list nat :=
  map fst l ++ map snd l.

(** Every connected object has been allocated, and none is connected
    twice. *)
Definition heap_ok (w : World) : Prop :=
  NoDup (instances (connections w))
  /\ forall i, In i (instances (connections w)) -> i < next_object w.

(** A response whose headers are not out has no body and is not ended. *)
Definition unsent_is_blank (r : ServerResponse) : Prop :=
  headersSent r = false -> body r = EmptyString /\ finished r = false.

(** The serialization of the URL of the loopback listener on [port]. *)
Definition loopback_url (port : N) : string :=
  if N.eqb port 80 then "http://127.0.0.1/"
  else "http://127.0.0.1:" ++ decimal port ++ "/".

(** Every tool of a registry runs the [change_title] callback. *)
Definition runs_change_title (env : Env) (client : ApiSessionClient)
    (mcp : McpServer) : Prop :=
  forall name t, find_tool name (tools mcp) = Some t ->
                 callback t = change_title_callback env client.

(** The registry [createMcpServer] builds as object [n]. *)
Definition happy_mcp (env : Env) (client : ApiSessionClient) (n : nat) : McpServer :=
  mkMcp n "Happy MCP" "1.0.0"
    [("change_title",
      mkTool "Change the title of the current chat session"
             "Change Chat Title"
             [("title", ZString "The new title for the chat session")]
             (change_title_callback env client))].

(** The world after the [catch] clause of the request listener, entered
    in [w]. *)
Definition after_catch (error : JsValue) (w : World) : World :=
  let w1 := set_log (log w ++ [LogRequestError error]) w in
  if headersSent (res w) then w1
  else set_res (mkRes true 500 (body (res w)) true) w1.

(** The world [startHappyServer] leaves once [listen] has been called. *)
Definition after_listen (client : ApiSessionClient) (w : World) : World :=
  set_listen_calls (S (listen_calls w))
    (set_server Created
       (set_log (log w ++ [LogStart (sessionId client)]) w)).

(** The messages handed to the client since [w0] are as many as the
    executions of the tool body logged since [w0]. *)
Definition sends_match_runs (w0 w : World) : Prop :=
  exists added,
    sent w = (sent w0 ++ added)%list
    /\ title_changes (log w) = title_changes (log w0) + length added.

(** The messages of successive [change_title] calls with the given titles,
    the first of which draws the [n]th identifier of the generator. *)
Fixpoint messages_from (env : Env) (n : nat) (titles : list string)
  : list SessionMessage :=
  match titles with
  | [] => []
  | ttl :: rest =>
      mkMessage "summary" ("[" ++ hostname env ++ "] " ++ ttl) (uuid_supply env n)
        :: messages_from env (S n) rest
  end.

(** Since [w0] the client was handed the messages of some sequence of
    titles, each with an identifier of its own draw, and nothing else drew
    from the generator. *)
Definition sent_since (env : Env) (w0 w : World) : Prop :=
  exists titles,
    sent w = (sent w0 ++ messages_from env (uuids_drawn w0) titles)%list
    /\ uuids_drawn w = uuids_drawn w0 + length titles.

(** The operating system assigns the listener a port other than 0. *)
Definition assigns_nonzero_port (env : Env) : Prop :=
  forall port, listen_outcome env = Bound port -> port <> 0%N.

(* ===================================================================== *)
(** ** Sample runs *)
(* ===================================================================== *)

Example url_of_ephemeral_port :
  option_map Url.toString (Url.parse ("http://127.0.0.1:" ++ decimal 54321))
  = Some "http://127.0.0.1:54321/".
Proof. reflexivity. Qed.

Example url_of_default_port :
  option_map Url.toString (Url.parse ("http://127.0.0.1:" ++ decimal 80))
  = Some "http://127.0.0.1/".
Proof. reflexivity. Qed.

Example url_with_path :
  option_map Url.toString (Url.parse "https://example.org:8443/a/b")
  = Some "https://example.org:8443/a/b".
Proof. reflexivity. Qed.

Example url_port_out_of_range :
  Url.parse ("http://127.0.0.1:" ++ decimal 65536) = None.
Proof. reflexivity. Qed.

Example String_of_Error : String_ (new_Error "boom") = Some "Error: boom".
Proof. reflexivity. Qed.

Example String_of_Error_without_message :
  String_ (new_Error EmptyString) = Some "Error".
Proof. reflexivity. Qed.

Example String_of_TypeError :
  String_ (JError "TypeError" "bad") = Some "TypeError: bad".
Proof. reflexivity. Qed.

Example String_of_bare_object : String_ JBareObject = None.
Proof. reflexivity. Qed.

(** The scenario of the specification: one call with [Refactor plan]. *)
Example refactor_plan_scenario :
  let (r, w) := change_title_callback sample_env sync_client
                  (mkArgs "Refactor plan") initial_world in
  r = Val (mkResult [mkBlock "text" (success_text "Refactor plan")] false)
  /\ sent w = [mkMessage "summary" "[myhost] Refactor plan" "uuid-0"].
Proof. split; reflexivity. Qed.

Example three_requests :
  map (fun a => statusCode (snd a))
      (fst (serve sample_env sync_client
              [tool_call_exchange (JString "A"); failing_exchange;
               tool_call_exchange JNull] initial_world))
  = [200; 500; 200].
Proof. reflexivity. Qed.

(* ===================================================================== *)
(** ** The tool body *)
(* ===================================================================== *)

(** Case analysis on what the client's send does with the message of a
    call. *)
Ltac by_send_outcome env client ttl w :=
  let thrown := fresh "thrown" in
  destruct (send_outcome env client ttl w) as [|[|?reason|]|thrown];
  [ | | | | destruct (String_ thrown) as [?converted|] ].

Section ToolBody.

Variable env : Env.
Variable client : ApiSessionClient.

(** One run of [handler], by the outcome of the send. *)
Lemma handler_run (ttl : string) (w : World) :
  let w1 := set_sent (sent w ++ [summary_message env ttl w])
              (set_uuids_drawn (S (uuids_drawn w))
                 (set_log (log w ++ [LogChangingTitle (summary (summary_message env ttl w))]) w)) in
  handler env client ttl w =
  match send_outcome env client ttl w with
  | SendReturns => (Val (mkResponse true None), w1)
  | SendReturnsPromise (Rejects reason) =>
      (Val (mkResponse true None), add_uncaught reason w1)
  | SendReturnsPromise _ => (Val (mkResponse true None), w1)
  | SendThrows e =>
      match String_ e with
      | Some reason => (Val (mkResponse false (Some reason)), w1)
      | None => (Exn cannot_convert, w1)
      end
  end.
Proof.
  unfold handler, send_outcome, summary_message, bind, try_catch, os_hostname,
    ret, logger_debug, modify, randomUUID, client_send, discard, js_String, throw.
  cbn.
  destruct (sendClaudeSessionMessage client (sent w) _) as [|[|reason|]|e];
    try reflexivity.
  destruct (String_ e); reflexivity.
Qed.

(** One run of the tool callback, by the outcome of the send. *)
Lemma callback_run (ttl : string) (w : World) :
  let w1 := set_sent (sent w ++ [summary_message env ttl w])
              (set_uuids_drawn (S (uuids_drawn w))
                 (set_log (log w ++ [LogChangingTitle (summary (summary_message env ttl w))]) w)) in
  let ok := mkResult [mkBlock "text" (success_text ttl)] false in
  let done (r : HandlerResponse) (v : World) := set_log (log v ++ [LogResponse r]) v in
  change_title_callback env client (mkArgs ttl) w =
  match send_outcome env client ttl w with
  | SendReturns => (Val ok, done (mkResponse true None) w1)
  | SendReturnsPromise (Rejects reason) =>
      (Val ok, done (mkResponse true None) (add_uncaught reason w1))
  | SendReturnsPromise _ => (Val ok, done (mkResponse true None) w1)
  | SendThrows e =>
      match String_ e with
      | Some reason =>
          (Val (mkResult
                  [mkBlock "text" (failure_text (or_else (Some reason) "Unknown error"))]
                  true),
           done (mkResponse false (Some reason)) w1)
      | None => (Exn cannot_convert, w1)
      end
  end.
Proof.
  unfold change_title_callback, bind. cbn [title].
  rewrite handler_run.
  by_send_outcome env client ttl w; reflexivity.
Qed.

(** The callback never waits: it returns a result or throws. *)
Lemma callback_completes (args : ChangeTitleArgs) (w : World) :
  fst (change_title_callback env client args w) <> Hang.
Proof.
  destruct args as [ttl]. rewrite callback_run.
  by_send_outcome env client ttl w; discriminate.
Qed.

(** What a run of the callback leaves alone and what it adds. *)
Lemma callback_frame (args : ChangeTitleArgs) (w : World) :
  let w' := snd (change_title_callback env client args w) in
  res w' = res w
  /\ next_object w' = next_object w
  /\ connections w' = connections w
  /\ sent w' = (sent w ++ [summary_message env (title args) w])%list
  /\ uuids_drawn w' = S (uuids_drawn w).
Proof.
  destruct args as [ttl]. cbn zeta. rewrite callback_run.
  by_send_outcome env client ttl w;
    repeat split; reflexivity.
Qed.

End ToolBody.

(* ===================================================================== *)
(** ** The request listener *)
(* ===================================================================== *)

Section RequestListener.

Variable env : Env.
Variable client : ApiSessionClient.

(** The registry [createMcpServer] returns, when the constructor does not
    throw: a new object holding the one tool. *)
Lemma createMcpServer_run (req : Exchange) (w : World) :
  createMcpServer env client req w =
  match mcp_constructor_throws req with
  | Some e => (Exn e, w)
  | None =>
      (Val (happy_mcp env client (next_object w)),
       set_next_object (S (next_object w)) w)
  end.
Proof.
  unfold createMcpServer, new_McpServer, bind.
  destruct (mcp_constructor_throws req); reflexivity.
Qed.

(** An invariant of the world that the response operations and the tool
    callback keep is kept by the whole processing of a request by the
    transport. *)
Lemma run_script_invariant (P : World -> Prop) (mcp : McpServer) :
  runs_change_title env client mcp ->
  (forall status w, P w -> P (snd (res_writeHead status w))) ->
  (forall chunk w, P w -> P (snd (res_write chunk w))) ->
  (forall w, P w -> P (snd (res_end w))) ->
  (forall args w, P w -> P (snd (change_title_callback env client args w))) ->
  forall s w, P w -> P (snd (run_script mcp s w)).
Proof.
  intros Hmcp Hhead Hwrite Hend Hcall.
  induction s as [|e| |status k IH|chunk k IH|k IH|name arg k IH]; intros w Hw;
    cbn [run_script]; unfold bind.
  - exact Hw.
  - exact Hw.
  - exact Hw.
  - specialize (Hhead status w Hw).
    destruct (res_writeHead status w) as [[[]|e|] w1]; cbn in *; auto.
  - specialize (Hwrite chunk w Hw).
    destruct (res_write chunk w) as [[[]|e|] w1]; cbn in *; auto.
  - specialize (Hend w Hw).
    destruct (res_end w) as [[[]|e|] w1]; cbn in *; auto.
  - unfold call_tool.
    destruct (find_tool name (tools mcp)) as [t|] eqn:Ht; cbn; [|auto].
    destruct (parse_args (inputSchema t) arg) as [args|]; cbn; [|auto].
    unfold try_catch, bind. rewrite (Hmcp _ _ Ht).
    specialize (Hcall args w Hw).
    destruct (change_title_callback env client args w) as [[r|e|] w1];
      cbn in *; auto.
Qed.

Lemma happy_mcp_tools (n : nat) : runs_change_title env client (happy_mcp env client n).
Proof.
  intros name t. cbn [happy_mcp tools find_tool].
  destruct (String.eqb "change_title" name); [|discriminate].
  intros H; injection H as <-. reflexivity.
Qed.

(** The body of the [try], step by step. *)
Lemma request_body_run (req : Exchange) (w : World) :
  let n := next_object w in
  request_body env client req w =
  match mcp_constructor_throws req with
  | Some e => (Exn e, w)
  | None =>
      match transport_constructor_throws req with
      | Some e => (Exn e, set_next_object (S n) w)
      | None =>
          match connect_outcome req with
          | Val _ =>
              run_script (happy_mcp env client n) (handleRequest_script req)
                (set_connections (connections w ++ [(n, S n)])
                   (set_next_object (S (S n)) w))
          | Exn e => (Exn e, set_next_object (S (S n)) w)
          | Hang => (Hang, set_next_object (S (S n)) w)
          end
      end
  end.
Proof.
  unfold request_body, bind. rewrite createMcpServer_run.
  destruct (mcp_constructor_throws req); [reflexivity|].
  unfold new_StreamableHTTPServerTransport.
  destruct (transport_constructor_throws req); [reflexivity|].
  unfold mcp_connect, transport_handleRequest. cbn.
  destruct (connect_outcome req) as [[]|e|]; reflexivity.
Qed.

(** The [catch] clause always completes, in the world [after_catch]. *)
Lemma catch_clause_run (error : JsValue) (w : World) :
  (logger_debug (LogRequestError error) ;;;
   headers_sent <- gets (fun w => headersSent (res w)) ;;
   if negb headers_sent then res_writeHead 500 ;;; res_end else ret tt) w
  = (Val tt, after_catch error w).
Proof.
  unfold after_catch, bind, logger_debug, modify, gets. cbn.
  destruct (headersSent (res w)) eqn:Hs; cbn.
  - reflexivity.
  - unfold res_writeHead, res_end, bind. cbn. rewrite Hs. cbn.
    destruct (finished (res w)); reflexivity.
Qed.

(** The request listener, by the way its [try] body ends. *)
Lemma requestHandler_run (req : Exchange) (w : World) :
  requestHandler env client req w =
  match request_body env client req w with
  | (Exn e, w1) => (Val tt, after_catch e w1)
  | r => r
  end.
Proof.
  unfold requestHandler, try_catch.
  destruct (request_body env client req w) as [[[]|e|] w1]; try reflexivity.
  apply catch_clause_run.
Qed.

(** No exception leaves the request listener. *)
Lemma requestHandler_never_throws (req : Exchange) (w : World) (e : JsValue) :
  fst (requestHandler env client req w) <> Exn e.
Proof.
  rewrite requestHandler_run.
  destruct (request_body env client req w) as [[[]|e0|] w1]; cbn; discriminate.
Qed.

End RequestListener.

(* ===================================================================== *)
(** ** Properties of the [change_title] tool *)
(* ===================================================================== *)

(** C1. For every title, when the client's send succeeds, a call of the
    [change_title] tool returns one text block reading
    [Successfully changed chat title to: "<title>"] (the caller's title,
    without the host prefix) with the error flag false, and hands the
    client exactly one message: of type [summary], with summary
    [[<hostname>] <title>] and, as [leafUuid], the identifier generated by
    the [randomUUID()] call of this invocation, which differs from every
    identifier generated before as long as the generator does not repeat
    itself. *)
Theorem change_title_success
    (env : Env) (client : ApiSessionClient) (ttl : string) (w : World) :
  delivered (send_outcome env client ttl w) = true ->
  exists w',
    change_title_callback env client (mkArgs ttl) w
    = (Val (mkResult
              [mkBlock "text"
                 ("Successfully changed chat title to: " ++ dquote ++ ttl ++ dquote)]
              false), w')
    /\ sent w' = (sent w ++ [mkMessage "summary"
                              ("[" ++ hostname env ++ "] " ++ ttl)
                              (uuid_supply env (uuids_drawn w))])%list
    /\ uuids_drawn w' = S (uuids_drawn w)
    /\ ((forall i j, uuid_supply env i = uuid_supply env j -> i = j) ->
        forall n, n < uuids_drawn w ->
                  uuid_supply env n <> uuid_supply env (uuids_drawn w)).
Proof.
  intros Hok. rewrite callback_run.
  by_send_outcome env client ttl w;
    try discriminate Hok; eexists; repeat split;
    intros Hinj n Hn Heq; apply Hinj in Heq; lia.
Qed.

Lemma change_title_success_witness :
  delivered (send_outcome sample_env sync_client "Refactor plan" initial_world) = true
  /\ exists w',
      change_title_callback sample_env sync_client (mkArgs "Refactor plan") initial_world
      = (Val (mkResult
                [mkBlock "text"
                   ("Successfully changed chat title to: "
                      ++ dquote ++ "Refactor plan" ++ dquote)]
                false), w')
      /\ sent w' = [mkMessage "summary" "[myhost] Refactor plan" "uuid-0"]
      /\ uuids_drawn w' = 1.
Proof.
  split; [reflexivity|].
  destruct (change_title_success sample_env sync_client "Refactor plan"
              initial_world eq_refl) as [w' [Hrun [Hsent [Hdrawn _]]]].
  exists w'. repeat split; assumption.
Defined.

(** A [tools/call] served while the client's send throws: the request is
    answered normally, with the failure text. *)
Example failure_through_request :
  fst (serve sample_env broken_client [tool_call_exchange (JString "A")]
         initial_world)
  = [(Val tt, mkRes true 200 "Failed to change chat title: Error: socket closed" true)].
Proof. reflexivity. Qed.

(** A client that throws [Object.create(null)]: the conversion in the
    catch clause throws, and the callback throws with it. *)
Example bare_object_run :
  fst (change_title_callback sample_env bare_client (mkArgs "A") initial_world)
  = Exn cannot_convert.
Proof. reflexivity. Qed.

(** The same call served as a request: the transport learns of the
    exception, and the listener completes. *)
Example bare_object_through_request :
  fst (serve sample_env bare_client [tool_call_exchange (JString "A")]
         initial_world)
  = [(Val tt, mkRes true 200 "internal error" true)].
Proof. reflexivity. Qed.

(** C2, as stated, fails: it is not for every thrown value that the tool
    returns the failure result. When the send throws [Object.create(null)],
    [String(error)] in the catch clause throws and the callback returns no
    result. *)
Lemma failure_result_for_every_throw_fails :
  ~ (forall env client ttl w e,
       send_outcome env client ttl w = SendThrows e ->
       exists reason w',
         change_title_callback env client (mkArgs ttl) w
         = (Val (mkResult
                   [mkBlock "text" ("Failed to change chat title: " ++ reason)]
                   true), w')).
Proof.
  intros claim.
  destruct (claim sample_env bare_client "A" initial_world JBareObject eq_refl)
    as [reason [w' Hrun]].
  discriminate Hrun.
Qed.

(** C2, amended. If the client's send throws a value whose [String(...)]
    conversion succeeds, the tool returns one text block reading
    [Failed to change chat title: <reason>] with the error flag true, where
    the reason is that conversion, or [Unknown error] when the conversion
    is the empty string; and whatever is thrown, no exception leaves the
    request listener. *)
Theorem change_title_failure
    (env : Env) (client : ApiSessionClient) (ttl : string) (w : World)
    (e : JsValue) (converted : string) :
  send_outcome env client ttl w = SendThrows e ->
  String_ e = Some converted ->
  (exists w',
     change_title_callback env client (mkArgs ttl) w
     = (Val (mkResult
               [mkBlock "text"
                  ("Failed to change chat title: "
                     ++ (if String.eqb converted EmptyString
                         then "Unknown error" else converted))]
               true), w'))
  /\ (forall req w0 e0, fst (requestHandler env client req w0) <> Exn e0).
Proof.
  intros Hthrow Hconv. split.
  - rewrite callback_run, Hthrow, Hconv. eexists. reflexivity.
  - intros req w0 e0. apply requestHandler_never_throws.
Qed.

Lemma change_title_failure_witness :
  send_outcome sample_env broken_client "Refactor plan" initial_world
  = SendThrows (new_Error "socket closed")
  /\ String_ (new_Error "socket closed") = Some "Error: socket closed"
  /\ (exists w',
        change_title_callback sample_env broken_client (mkArgs "Refactor plan")
          initial_world
        = (Val (mkResult
                  [mkBlock "text" "Failed to change chat title: Error: socket closed"]
                  true), w'))
  /\ (forall req w0 e0,
        fst (requestHandler sample_env broken_client req w0) <> Exn e0).
Proof.
  split; [reflexivity|]. split; [reflexivity|].
  exact (change_title_failure sample_env broken_client "Refactor plan"
           initial_world (new_Error "socket closed") "Error: socket closed"
           eq_refl eq_refl).
Defined.

Lemma eqb_empty_false (s : string) : s <> EmptyString -> String.eqb s EmptyString = false.
Proof. intros H. apply String.eqb_neq. exact H. Qed.

(** The failure record of [handler] always carries its [error] string. *)
Lemma handler_failure_has_error
    (env : Env) (client : ApiSessionClient) (ttl : string) (w w' : World)
    (r : HandlerResponse) :
  handler env client ttl w = (Val r, w') -> success r = false ->
  exists s, error r = Some s.
Proof.
  rewrite handler_run.
  by_send_outcome env client ttl w;
    intros H; try discriminate H; injection H as <- _; cbn; intros Hs;
    try discriminate Hs; eauto.
Qed.

(** A client that throws [new Error("")]: the text is the name alone. *)
Example terse_error_run :
  fst (change_title_callback sample_env terse_client (mkArgs "A") initial_world)
  = Val (mkResult [mkBlock "text" "Failed to change chat title: Error"] true).
Proof. reflexivity. Qed.

(** C9, as stated, fails. Throwing an [Error] object does not always
    yield [Error: <message>]: [new Error("")] yields [Error] alone. And the
    text is not always the conversion of the thrown value: for
    [Object.create(null)] the conversion throws and there is no text. *)
Lemma failure_text_of_every_Error_fails :
  ~ (forall env client ttl w message,
       send_outcome env client ttl w = SendThrows (new_Error message) ->
       exists w',
         change_title_callback env client (mkArgs ttl) w
         = (Val (mkResult
                   [mkBlock "text"
                      ("Failed to change chat title: " ++ "Error: " ++ message)]
                   true), w'))
  /\ ~ (forall env client ttl w e,
          send_outcome env client ttl w = SendThrows e ->
          exists reason w',
            handler env client ttl w
            = (Val (mkResponse false (Some reason)), w')).
Proof.
  split; intros claim.
  - destruct (claim sample_env terse_client "A" initial_world EmptyString eq_refl)
      as [w' Hrun].
    discriminate Hrun.
  - destruct (claim sample_env bare_client "A" initial_world JBareObject eq_refl)
      as [reason [w' Hrun]].
    discriminate Hrun.
Qed.

(** C9, amended. On the failure path, when the [String(...)] conversion
    of the thrown value succeeds, the text after
    [Failed to change chat title: ] is that conversion. For an [Error]
    object it is what [Error.prototype.toString] gives: [<name>: <message>]
    when it has a name and a message (so [Error: <message>] for
    [new Error(message)], not the bare message) and the name alone when the
    message is empty. The [Unknown error] fallback is used exactly when the
    conversion is the empty string. The [error] field of a failure record
    of [handler] is always a string, never absent. *)
Theorem failure_reason_is_String_conversion
    (env : Env) (client : ApiSessionClient) (ttl : string) (w : World)
    (e : JsValue) (converted : string) :
  send_outcome env client ttl w = SendThrows e ->
  String_ e = Some converted ->
  (exists w1,
     handler env client ttl w = (Val (mkResponse false (Some converted)), w1))
  /\ (exists reason w',
        change_title_callback env client (mkArgs ttl) w
        = (Val (mkResult
                  [mkBlock "text" ("Failed to change chat title: " ++ reason)]
                  true), w')
        /\ (converted <> EmptyString -> reason = converted)
        /\ (converted = EmptyString -> reason = "Unknown error"))
  /\ (forall name message,
        e = JError name message ->
        (name <> EmptyString -> message <> EmptyString ->
         converted = name ++ ": " ++ message)
        /\ (message = EmptyString -> converted = name)
        /\ (name = "Error" -> message <> EmptyString ->
            converted = "Error: " ++ message))
  /\ (forall ttl0 w0 r w0',
        handler env client ttl0 w0 = (Val r, w0') -> success r = false ->
        exists s, error r = Some s).
Proof.
  intros Hthrow Hconv. split; [|split; [|split]].
  - rewrite handler_run, Hthrow, Hconv. eexists. reflexivity.
  - rewrite callback_run, Hthrow, Hconv.
    exists (or_else (Some converted) "Unknown error"). eexists.
    split; [reflexivity|]. cbn [or_else]. split.
    + intros Hne. rewrite (eqb_empty_false _ Hne). reflexivity.
    + intros ->. reflexivity.
  - intros name message ->. cbn [String_] in Hconv. injection Hconv as <-.
    unfold error_toString. repeat split.
    + intros Hn Hm.
      rewrite (eqb_empty_false _ Hn), (eqb_empty_false _ Hm). reflexivity.
    + intros ->. destruct (String.eqb name EmptyString) eqn:Hn; [|reflexivity].
      apply String.eqb_eq in Hn. symmetry. exact Hn.
    + intros -> Hm. cbn. rewrite (eqb_empty_false _ Hm). reflexivity.
  - intros ttl0 w0 r w0'. apply handler_failure_has_error.
Qed.

Lemma failure_reason_is_String_conversion_witness :
  send_outcome sample_env mute_client "Refactor plan" initial_world
  = SendThrows (JString EmptyString)
  /\ String_ (JString EmptyString) = Some EmptyString
  /\ exists reason w',
      change_title_callback sample_env mute_client (mkArgs "Refactor plan")
        initial_world
      = (Val (mkResult
                [mkBlock "text" ("Failed to change chat title: " ++ reason)]
                true), w')
      /\ reason = "Unknown error".
Proof.
  split; [reflexivity|]. split; [reflexivity|].
  destruct (failure_reason_is_String_conversion sample_env mute_client
              "Refactor plan" initial_world (JString EmptyString) EmptyString
              eq_refl eq_refl)
    as [_ [[reason [w' [Hrun [_ Hempty]]]] _]].
  exists reason, w'. split; [exact Hrun|]. apply Hempty. reflexivity.
Defined.

(** A delivery that fails asynchronously is answered with the success
    text. *)
Example async_failure_run :
  delivered (send_outcome sample_env async_failing_client "Refactor plan"
               initial_world) = false
  /\ fst (change_title_callback sample_env async_failing_client
            (mkArgs "Refactor plan") initial_world)
     = Val (mkResult [mkBlock "text" (success_text "Refactor plan")] false).
Proof. split; reflexivity. Qed.

(** C3, as stated, fails: the result of the tool does not always reflect
    the outcome of the delivery. With a client whose send returns a promise
    that rejects, the tool returns the success result. *)
Lemma result_reflects_delivery_fails :
  ~ (forall env client ttl w r w',
       change_title_callback env client (mkArgs ttl) w = (Val r, w') ->
       settled (send_outcome env client ttl w) = true
       /\ isError r = negb (delivered (send_outcome env client ttl w))).
Proof.
  intros claim.
  destruct (claim sample_env async_failing_client "Refactor plan" initial_world
              _ _ eq_refl) as [_ Hflag].
  discriminate Hflag.
Qed.

(** C3, amended. The send is called and its result is not awaited, so
    the tool call never waits for a delivery. When the call of
    [sendClaudeSessionMessage] returns, with or without a promise and
    whatever becomes of the promise, the tool returns the success result,
    and a rejection of the promise is left unhandled. Whenever the tool
    returns a result, it is a failure result exactly when the call itself
    threw; and it does return the failure result when the thrown value
    converts to a string. *)
Theorem result_reflects_synchronous_send
    (env : Env) (client : ApiSessionClient) (ttl : string) (w : World) :
  fst (change_title_callback env client (mkArgs ttl) w) <> Hang
  /\ ((send_outcome env client ttl w = SendReturns
       \/ exists fate, send_outcome env client ttl w = SendReturnsPromise fate) ->
      exists w',
        change_title_callback env client (mkArgs ttl) w
        = (Val (mkResult [mkBlock "text" (success_text ttl)] false), w'))
  /\ (forall r w',
        change_title_callback env client (mkArgs ttl) w = (Val r, w') ->
        (isError r = true <-> exists e, send_outcome env client ttl w = SendThrows e))
  /\ (forall e converted,
        send_outcome env client ttl w = SendThrows e ->
        String_ e = Some converted ->
        exists r w',
          change_title_callback env client (mkArgs ttl) w = (Val r, w')
          /\ isError r = true)
  /\ (forall reason,
        send_outcome env client ttl w = SendReturnsPromise (Rejects reason) ->
        uncaught (snd (change_title_callback env client (mkArgs ttl) w))
        = (uncaught w ++ [reason])%list).
Proof.
  split; [apply (callback_completes env client (mkArgs ttl) w)|].
  split; [|split; [|split]].
  - intros Hret. rewrite callback_run.
    destruct (send_outcome env client ttl w) as [|[|reason|]|e];
      try (eexists; reflexivity).
    destruct Hret as [H|[fate H]]; discriminate H.
  - intros r w'. rewrite callback_run.
    destruct (send_outcome env client ttl w) as [|[|reason|]|e];
      [| | | | destruct (String_ e)];
      intros Hrun; try discriminate Hrun; injection Hrun as <- _;
      cbn [isError]; split;
      first [ intros H; discriminate H
            | intros [e0 H]; discriminate H
            | intros; eauto ].
  - intros e converted Hs Hc. rewrite callback_run, Hs, Hc.
    do 2 eexists. split; reflexivity.
  - intros reason Hs. rewrite callback_run, Hs. reflexivity.
Qed.

(* ===================================================================== *)
(** ** Errors at the request level *)
(* ===================================================================== *)

Section RequestErrors.

Variable env : Env.
Variable client : ApiSessionClient.

Lemma res_writeHead_blank (status : nat) (w : World) :
  unsent_is_blank (res w) -> unsent_is_blank (res (snd (res_writeHead status w))).
Proof.
  unfold res_writeHead, unsent_is_blank. intros H.
  destruct (headersSent (res w)) eqn:Hs; cbn.
  - rewrite Hs. discriminate.
  - discriminate.
Qed.

Lemma res_write_blank (chunk : string) (w : World) :
  unsent_is_blank (res w) -> unsent_is_blank (res (snd (res_write chunk w))).
Proof.
  unfold res_write, unsent_is_blank. intros H.
  destruct (finished (res w)) eqn:Hf; cbn; [rewrite Hf; exact H | discriminate].
Qed.

Lemma res_end_blank (w : World) :
  unsent_is_blank (res w) -> unsent_is_blank (res (snd (res_end w))).
Proof.
  unfold res_end, unsent_is_blank. intros H.
  destruct (finished (res w)) eqn:Hf; cbn; [rewrite Hf; exact H | discriminate].
Qed.

(** While the transport processes a request, a response whose headers are
    not out stays without body. *)
Lemma request_body_blank (req : Exchange) (w : World) :
  unsent_is_blank (res w) ->
  unsent_is_blank (res (snd (request_body env client req w))).
Proof.
  intros Hw. rewrite request_body_run. cbn zeta.
  destruct (mcp_constructor_throws req); [exact Hw|].
  destruct (transport_constructor_throws req); [exact Hw|].
  destruct (connect_outcome req) as [[]|e|]; try exact Hw.
  apply (run_script_invariant env client (fun v => unsent_is_blank (res v))).
  - apply happy_mcp_tools.
  - apply res_writeHead_blank.
  - apply res_write_blank.
  - apply res_end_blank.
  - intros args v Hv.
    destruct (callback_frame env client args v) as [-> _]. exact Hv.
  - exact Hw.
Qed.

End RequestErrors.

(** C4. An exception thrown while a request is handled (building the
    registry or the transport, connecting them, or the transport's
    processing of the request) is caught by the request listener: the
    listener completes normally, no exception leaves it, and when no
    response headers were sent by then the request is answered with status
    500, no body, and the response ended; when headers were already sent
    the response is left as it is. *)
Theorem request_failure_is_answered_500
    (env : Env) (client : ApiSessionClient) (req : Exchange) (w w1 : World)
    (e : JsValue) :
  request_body env client req (set_res fresh_response w) = (Exn e, w1) ->
  (forall req0 w0 e0, fst (requestHandler env client req0 w0) <> Exn e0)
  /\ exists w2,
      dispatch env client req w = (Val tt, w2)
      /\ (headersSent (res w1) = false -> res w2 = mkRes true 500 EmptyString true)
      /\ (headersSent (res w1) = true -> res w2 = res w1).
Proof.
  intros Hbody. split.
  - intros req0 w0 e0. apply requestHandler_never_throws.
  - assert (Hblank : unsent_is_blank (res w1)).
    { pose proof (request_body_blank env client req (set_res fresh_response w)) as H.
      rewrite Hbody in H. apply H. intros _. split; reflexivity. }
    unfold dispatch, bind, modify. rewrite requestHandler_run, Hbody.
    eexists. split; [reflexivity|]. unfold after_catch.
    destruct (headersSent (res w1)) eqn:Hs; cbn; split; intros Hx;
      try discriminate Hx; try reflexivity.
    destruct (Hblank Hs) as [-> _]. reflexivity.
Qed.

Lemma request_failure_is_answered_500_witness :
  exists w1 w2,
    request_body sample_env sync_client failing_exchange
      (set_res fresh_response initial_world)
    = (Exn (new_Error "no transport"), w1)
    /\ headersSent (res w1) = false
    /\ dispatch sample_env sync_client failing_exchange initial_world = (Val tt, w2)
    /\ res w2 = mkRes true 500 EmptyString true.
Proof.
  eexists.
  destruct (request_failure_is_answered_500 sample_env sync_client
              failing_exchange initial_world _ (new_Error "no transport") eq_refl)
    as [_ [w2 [Hrun [H500 _]]]].
  exists w2. repeat split; [exact Hrun | exact (H500 eq_refl)].
Defined.

(* ===================================================================== *)
(** ** One registry and one transport per request *)
(* ===================================================================== *)

Section Isolation.

Variable env : Env.
Variable client : ApiSessionClient.

(** The transport's processing of a request builds and connects nothing. *)
Lemma run_script_objects (n : nat) (s : Script) (w : World) :
  let w' := snd (run_script (happy_mcp env client n) s w) in
  next_object w' = next_object w /\ connections w' = connections w.
Proof.
  cbn zeta.
  apply (run_script_invariant env client
           (fun v => next_object v = next_object w /\ connections v = connections w)).
  - apply happy_mcp_tools.
  - intros status v Hv. unfold res_writeHead.
    destruct (headersSent (res v)); exact Hv.
  - intros chunk v Hv. unfold res_write. destruct (finished (res v)); exact Hv.
  - intros v Hv. unfold res_end. destruct (finished (res v)); exact Hv.
  - intros args v [Hn Hc].
    destruct (callback_frame env client args v) as [_ [-> [-> _]]]. auto.
  - auto.
Qed.

Lemma after_catch_objects (e : JsValue) (w : World) :
  next_object (after_catch e w) = next_object w
  /\ connections (after_catch e w) = connections w.
Proof. unfold after_catch. destruct (headersSent (res w)); split; reflexivity. Qed.

(** What one request adds to the heap: either no connection, or the
    connection of the two objects it has just built. *)
Lemma dispatch_objects (req : Exchange) (w : World) :
  let n := next_object w in
  let w' := snd (dispatch env client req w) in
  (connections w' = connections w /\ n <= next_object w')
  \/ (connections w' = (connections w ++ [(n, S n)])%list
      /\ next_object w' = S (S n)
      /\ mcp_constructor_throws req = None
      /\ transport_constructor_throws req = None
      /\ connect_outcome req = Val tt).
Proof.
  cbn zeta. unfold dispatch, bind, modify.
  rewrite requestHandler_run, request_body_run. cbn zeta.
  destruct (mcp_constructor_throws req) as [e1|].
  { left. destruct (after_catch_objects e1 (set_res fresh_response w)) as [Hn Hc].
    cbn [snd]. rewrite Hn, Hc. cbn. auto. }
  destruct (transport_constructor_throws req) as [e2|].
  { left.
    destruct (after_catch_objects e2
                (set_next_object (S (next_object (set_res fresh_response w)))
                   (set_res fresh_response w))) as [Hn Hc].
    cbn [snd]. rewrite Hn, Hc. cbn. auto. }
  destruct (connect_outcome req) as [[]|e|].
  - right.
    match goal with
    | |- context [run_script ?m ?s ?v] =>
        destruct (run_script_objects (next_object (set_res fresh_response w)) s v)
          as [Hn Hc];
        destruct (run_script m s v) as [[[]|e|] w1]
    end; cbn [snd] in *;
      try (destruct (after_catch_objects e w1) as [Hn' Hc']; rewrite Hn', Hc');
      rewrite Hn, Hc; cbn; auto.
  - left.
    match goal with
    | |- context [after_catch e ?v] =>
        destruct (after_catch_objects e v) as [Hn Hc]
    end.
    cbn [snd]. rewrite Hn, Hc. cbn. auto.
  - left. cbn. auto.
Qed.

Lemma instances_snoc (c : list (nat * nat)) (a b i : nat) :
  In i (instances (c ++ [(a, b)])) <-> i = a \/ i = b \/ In i (instances c).
Proof.
  unfold instances. rewrite !map_app. cbn [map fst snd].
  rewrite !in_app_iff. cbn [In]. intuition congruence.
Qed.

Lemma instances_snoc_NoDup (c : list (nat * nat)) (a b : nat) :
  NoDup (instances c) -> ~ In a (instances c) -> ~ In b (instances c) -> a <> b ->
  NoDup (instances (c ++ [(a, b)])).
Proof.
  intros Hc Ha Hb Hab.
  apply (Permutation.Permutation_NoDup (l := a :: b :: instances c)).
  - unfold instances. rewrite !map_app. cbn [map fst snd].
    rewrite <- List.app_assoc. cbn [app].
    apply Permutation.Permutation_cons_app.
    rewrite List.app_assoc. apply Permutation.Permutation_cons_append.
  - constructor; [|constructor; assumption].
    cbn [In]. intros [H|H]; [congruence | contradiction].
Qed.

(** Serving a request keeps the heap well formed. *)
Lemma dispatch_heap_ok (req : Exchange) (w : World) :
  heap_ok w -> heap_ok (snd (dispatch env client req w)).
Proof.
  intros [Hnd Hlt].
  destruct (dispatch_objects req w) as [[Hc Hn]|[Hc [Hn _]]]; cbn zeta in *;
    unfold heap_ok; rewrite Hc.
  - split; [exact Hnd|]. intros i Hi. specialize (Hlt i Hi). lia.
  - split.
    + apply instances_snoc_NoDup; try assumption.
      * intros Hi. specialize (Hlt _ Hi). lia.
      * intros Hi. specialize (Hlt _ Hi). lia.
      * lia.
    + intros i Hi. rewrite Hn. apply instances_snoc in Hi.
      destruct Hi as [->|[->|Hi]]; [lia | lia | specialize (Hlt i Hi); lia].
Qed.

(** The connections a run of requests adds: at most one per request, each
    joining objects built during the run. *)
Lemma serve_objects (reqs : list Exchange) (w : World) :
  let w' := snd (serve env client reqs w) in
  next_object w <= next_object w'
  /\ exists added,
      connections w' = (connections w ++ added)%list
      /\ length added <= length reqs
      /\ forall i, In i (instances added) -> next_object w <= i.
Proof.
  revert w. induction reqs as [|req rest IH]; intros w; cbn zeta.
  - cbn. split; [lia|]. exists []. rewrite List.app_nil_r. cbn.
    repeat split; [lia | contradiction].
  - cbn [serve].
    pose proof (dispatch_objects req w) as Hd. cbn zeta in Hd.
    destruct (dispatch env client req w) as [c w1]. cbn [snd] in Hd.
    specialize (IH w1). cbn zeta in IH.
    destruct (serve env client rest w1) as [answers w2]. cbn [snd] in *.
    destruct IH as [Hle [added [Hc [Hlen Hfresh]]]].
    destruct Hd as [[Hc1 Hn1]|[Hc1 [Hn1 _]]].
    + split; [lia|]. exists added. rewrite Hc, Hc1.
      repeat split; [cbn [length]; lia|]. intros i Hi. specialize (Hfresh i Hi). lia.
    + split; [lia|].
      exists ((next_object w, S (next_object w)) :: added).
      rewrite Hc, Hc1, <- List.app_assoc. repeat split; [cbn; lia|].
      intros i Hi. unfold instances in Hi. cbn [map fst snd] in Hi.
      rewrite in_app_iff in Hi. cbn [In] in Hi.
      assert (Hin : forall j, In j (map fst added) \/ In j (map snd added) ->
                              next_object w1 <= j).
      { intros j Hj. apply Hfresh. unfold instances. rewrite in_app_iff. exact Hj. }
      destruct Hi as [[<-|Hi]|[<-|Hi]]; try lia.
      * specialize (Hin i (or_introl Hi)). lia.
      * specialize (Hin i (or_intror Hi)). lia.
Qed.

Lemma serve_heap_ok (reqs : list Exchange) (w : World) :
  heap_ok w -> heap_ok (snd (serve env client reqs w)).
Proof.
  revert w. induction reqs as [|req rest IH]; intros w Hw; [exact Hw|].
  cbn [serve].
  pose proof (dispatch_heap_ok req w Hw) as H1.
  destruct (dispatch env client req w) as [c w1]. cbn [snd] in H1.
  specialize (IH w1 H1).
  destruct (serve env client rest w1) as [answers w2]. exact IH.
Qed.

End Isolation.

(** C5. Every inbound request builds a registry and a transport of its
    own: over any run of requests no registry and no transport is connected
    twice, every connection of the run joins objects that did not exist
    before it, at most one pair is connected per request, and a request
    whose construction and connection succeed connects exactly the two
    objects it has just built. *)
Theorem fresh_instances_per_request
    (env : Env) (client : ApiSessionClient) (reqs : list Exchange) (w : World) :
  heap_ok w ->
  let w' := snd (serve env client reqs w) in
  NoDup (instances (connections w'))
  /\ (exists added,
        connections w' = (connections w ++ added)%list
        /\ length added <= length reqs
        /\ forall i, In i (instances added) -> next_object w <= i)
  /\ (forall req v,
        mcp_constructor_throws req = None ->
        transport_constructor_throws req = None ->
        connect_outcome req = Val tt ->
        let v' := snd (dispatch env client req v) in
        connections v' = (connections v ++ [(next_object v, S (next_object v))])%list
        /\ next_object v' = S (S (next_object v))).
Proof.
  intros Hw. cbn zeta. split; [|split].
  - apply (serve_heap_ok env client reqs w Hw).
  - apply (serve_objects env client reqs w).
  - intros req v Hm Ht Hc. unfold dispatch, bind, modify.
    rewrite requestHandler_run, request_body_run. cbn zeta. rewrite Hm, Ht, Hc.
    match goal with
    | |- context [run_script ?m ?s ?u] =>
        destruct (run_script_objects env client
                    (next_object (set_res fresh_response v)) s u) as [Hn Hk];
        destruct (run_script m s u) as [[[]|e|] w1]
    end; cbn [snd] in *;
      try (destruct (after_catch_objects e w1) as [Hn' Hk']; rewrite Hn', Hk');
      rewrite Hn, Hk; cbn; auto.
Qed.

Lemma fresh_instances_per_request_witness :
  heap_ok initial_world
  /\ NoDup (instances (connections (snd (serve sample_env sync_client
              [tool_call_exchange (JString "A"); failing_exchange;
               tool_call_exchange JNull] initial_world))))
  /\ connections (snd (serve sample_env sync_client
              [tool_call_exchange (JString "A"); failing_exchange;
               tool_call_exchange JNull] initial_world)) = [(0, 1); (3, 4)].
Proof.
  assert (H0 : heap_ok initial_world).
  { split; [constructor | intros i []]. }
  split; [exact H0|]. split; [|reflexivity].
  exact (proj1 (fresh_instances_per_request sample_env sync_client
                  [tool_call_exchange (JString "A"); failing_exchange;
                   tool_call_exchange JNull] initial_world H0)).
Defined.

(* ===================================================================== *)
(** ** The URL of the listener *)
(* ===================================================================== *)

(** Appending to a string, seen on the lists of characters. *)
Lemma list_ascii_of_append (s t : string) :
  list_ascii_of_string (s ++ t)
  = (list_ascii_of_string s ++ list_ascii_of_string t)%list.
Proof.
  induction s as [|c s IH]; [reflexivity|]. cbn. rewrite IH. reflexivity.
Qed.

Lemma list_ascii_of_string_inj (s t : string) :
  list_ascii_of_string s = list_ascii_of_string t -> s = t.
Proof.
  intros H. rewrite <- (string_of_list_ascii_of_string s),
    <- (string_of_list_ascii_of_string t), H. reflexivity.
Qed.

Lemma append_inv_head (p s t : string) : p ++ s = p ++ t -> s = t.
Proof.
  induction p as [|c p IH]; cbn; [auto|]. intros H. injection H as H. auto.
Qed.

Lemma append_inv_tail (s t q : string) : s ++ q = t ++ q -> s = t.
Proof.
  intros H. apply list_ascii_of_string_inj.
  apply (f_equal list_ascii_of_string) in H.
  rewrite !list_ascii_of_append in H.
  apply List.app_inv_tail in H. exact H.
Qed.

(** A decimal numeral holds neither a slash nor a colon. *)
Lemma split_at_numeral (c : ascii) (u : Decimal.uint) :
  c = "/"%char \/ c = ":"%char ->
  Url.split_at c (NilEmpty.string_of_uint u) = (NilEmpty.string_of_uint u, None).
Proof.
  intros Hc. induction u as [|u IH|u IH|u IH|u IH|u IH|u IH|u IH|u IH|u IH|u IH];
    [reflexivity| ..];
    cbn [NilEmpty.string_of_uint Url.split_at]; rewrite IH;
    destruct Hc as [-> | ->]; reflexivity.
Qed.

Lemma decimal_nonempty (n : N) : decimal n <> EmptyString.
Proof.
  unfold decimal. destruct n as [|p]; [discriminate|].
  cbn [N.to_uint]. pose proof (Unsigned.to_uint_nonnil p) as Hp.
  destruct (Pos.to_uint p); [contradiction| ..]; discriminate.
Qed.

Lemma decimal_parses (n : N) :
  NilEmpty.uint_of_string (decimal n) = Some (N.to_uint n).
Proof. unfold decimal. apply NilEmpty.usu. Qed.

(** The port state of the parser on the numeral of [n]. *)
Lemma parse_port_decimal (n : N) :
  Url.parse_port "http" (decimal n) =
  if (65535 <? n)%N then None
  else if N.eqb 80 n then Some None else Some (Some n).
Proof.
  unfold Url.parse_port. rewrite decimal_parses.
  rewrite (eqb_empty_false _ (decimal_nonempty n)).
  rewrite DecimalN.Unsigned.of_to. reflexivity.
Qed.

(** [new URL(`http://127.0.0.1:${port}`)] for a port that fits in sixteen
    bits: the default port of the scheme is dropped, the path is [/]. *)
Lemma parse_loopback (port : N) :
  (port <= 65535)%N ->
  Url.parse ("http://127.0.0.1:" ++ decimal port)
  = Some (Url.mkURL "http" "127.0.0.1"
            (if N.eqb port 80 then None else Some port) "/").
Proof.
  intros Hport.
  assert (Hslash : Url.split_at "/" (decimal port) = (decimal port, None))
    by (apply split_at_numeral; auto).
  pose proof (parse_port_decimal port) as Hp.
  revert Hslash Hp. generalize (decimal port) as d. intros d Hslash Hp.
  unfold Url.parse. cbn [append Url.split_at Ascii.eqb Bool.eqb].
  rewrite Hslash. cbn [Url.split_at Ascii.eqb Bool.eqb].
  change (Url.default_port "http") with (Some 80%N). cbn iota.
  change (String.eqb "127.0.0.1" EmptyString) with false. cbn iota.
  rewrite Hp.
  destruct (N.ltb_spec 65535 port) as [Hlt|_]; [lia|].
  rewrite (N.eqb_sym 80 port).
  destruct (N.eqb port 80); reflexivity.
Qed.

(** Its serialization. *)
Lemma loopback_url_spec (port : N) :
  (port <= 65535)%N ->
  option_map Url.toString (Url.parse ("http://127.0.0.1:" ++ decimal port))
  = Some (loopback_url port).
Proof.
  intros Hport. rewrite (parse_loopback port Hport). unfold loopback_url.
  destruct (N.eqb port 80); reflexivity.
Qed.

(** A port beyond sixteen bits does not parse. *)
Lemma parse_loopback_out_of_range (port : N) :
  (65535 < port)%N -> Url.parse ("http://127.0.0.1:" ++ decimal port) = None.
Proof.
  intros Hport.
  assert (Hslash : Url.split_at "/" (decimal port) = (decimal port, None))
    by (apply split_at_numeral; auto).
  pose proof (parse_port_decimal port) as Hp.
  revert Hslash Hp. generalize (decimal port) as d. intros d Hslash Hp.
  unfold Url.parse. cbn [append Url.split_at Ascii.eqb Bool.eqb].
  rewrite Hslash. cbn [Url.split_at Ascii.eqb Bool.eqb].
  change (Url.default_port "http") with (Some 80%N). cbn iota.
  change (String.eqb "127.0.0.1" EmptyString) with false. cbn iota.
  rewrite Hp.
  destruct (N.ltb_spec 65535 port) as [_|Hle]; [reflexivity|lia].
Qed.

(* ===================================================================== *)
(** ** Start and stop *)
(* ===================================================================== *)

Section Lifecycle.

Variable env : Env.
Variable client : ApiSessionClient.

(** [startHappyServer], by what the listener reports. *)
Lemma startHappyServer_run (w : World) :
  startHappyServer env client w =
  match listen_outcome env with
  | Bound port =>
      let w1 := set_server (Listening port) (after_listen client w) in
      match Url.parse ("http://127.0.0.1:" ++ decimal port) with
      | Some u =>
          (Val (mkHandle (Url.toString u) ["change_title"] (stop_server client)),
           set_log (log w1 ++ [LogReady (sessionId client) (Url.toString u)]) w1)
      | None => (Hang, add_uncaught (JError "TypeError" "Invalid URL") w1)
      end
  | BindFails e => (Hang, add_uncaught e (after_listen client w))
  end.
Proof.
  unfold startHappyServer, bind, logger_debug, createServer, modify, server_listen,
    server_address_port, new_URL, after_listen.
  cbn -[Url.parse decimal append].
  destruct (listen_outcome env) as [port|e]; [|reflexivity].
  cbn -[Url.parse decimal append].
  destruct (Url.parse ("http://127.0.0.1:" ++ decimal port)) as [u|]; reflexivity.
Qed.

(** When start resolves, the listener has reported a port, it listens on
    it, and the handle is built from that port. *)
Lemma startHappyServer_resolved (w w' : World) (h : Handle) :
  startHappyServer env client w = (Val h, w') ->
  exists port,
    listen_outcome env = Bound port
    /\ (port <= 65535)%N
    /\ server w' = Listening port
    /\ h = mkHandle (loopback_url port) ["change_title"] (stop_server client).
Proof.
  rewrite startHappyServer_run.
  destruct (listen_outcome env) as [port|e]; [|discriminate].
  cbn zeta. intros H. exists port.
  destruct (N.le_gt_cases port 65535) as [Hle|Hgt].
  - pose proof (loopback_url_spec port Hle) as Hurl.
    destruct (Url.parse ("http://127.0.0.1:" ++ decimal port)) as [u|];
      [|discriminate].
    cbn in Hurl. injection Hurl as Hurl. rewrite Hurl in H.
    injection H as <- <-. repeat split. exact Hle.
  - rewrite (parse_loopback_out_of_range port Hgt) in H. discriminate.
Qed.

(** Start resolves whenever the listener reports a sixteen-bit port. *)
Lemma startHappyServer_resolves (w : World) (port : N) :
  listen_outcome env = Bound port -> (port <= 65535)%N ->
  exists w',
    startHappyServer env client w
    = (Val (mkHandle (loopback_url port) ["change_title"] (stop_server client)), w').
Proof.
  intros Hb Hle. rewrite startHappyServer_run, Hb. cbn zeta.
  pose proof (loopback_url_spec port Hle) as Hurl.
  destruct (Url.parse ("http://127.0.0.1:" ++ decimal port)) as [u|];
    [|discriminate].
  cbn in Hurl. injection Hurl as ->. eexists. reflexivity.
Qed.

(** Start and stop hand nothing to the session client. *)
Lemma startHappyServer_sent (w : World) :
  sent (snd (startHappyServer env client w)) = sent w.
Proof.
  rewrite startHappyServer_run.
  destruct (listen_outcome env) as [port|e]; [|reflexivity].
  cbn zeta.
  destruct (Url.parse ("http://127.0.0.1:" ++ decimal port)); reflexivity.
Qed.

Lemma stop_server_run (w : World) :
  stop_server client w
  = (Val tt,
     let w1 := set_log (log w ++ [LogStop (sessionId client)]) w in
     match server w with
     | Listening _ => set_server Closed w1
     | _ => w1
     end).
Proof.
  unfold stop_server, bind, logger_debug, server_close, modify. cbn.
  destruct (server w); reflexivity.
Qed.

End Lifecycle.

Example start_on_ephemeral_port :
  fst (startHappyServer sample_env sync_client initial_world)
  = Val (mkHandle "http://127.0.0.1:54321/" ["change_title"] (stop_server sync_client)).
Proof. reflexivity. Qed.

Example start_without_socket :
  fst (startHappyServer exhausted_env sync_client initial_world) = Hang.
Proof. reflexivity. Qed.

(** C6, as stated, fails: a bind failure does not reach the caller of
    start as an exception. *)
Lemma bind_failure_reaches_caller_fails :
  ~ (forall env client w e,
       listen_outcome env = BindFails e ->
       fst (startHappyServer env client w) = Exn e).
Proof.
  intros claim.
  specialize (claim exhausted_env sync_client initial_world _ eq_refl).
  discriminate claim.
Qed.

(** C6, amended. If binding fails, start neither catches the failure nor
    tries again ([listen] is called once), but the failure does not reach
    its caller either: start has registered no ['error'] listener and has no
    way to reject its promise, so the bind error is an unhandled ['error']
    event of the listener and the promise of start never settles. *)
Theorem bind_failure_is_unhandled
    (env : Env) (client : ApiSessionClient) (w : World) (e : JsValue) :
  listen_outcome env = BindFails e ->
  exists w',
    startHappyServer env client w = (Hang, w')
    /\ uncaught w' = (uncaught w ++ [e])%list
    /\ listen_calls w' = S (listen_calls w)
    /\ server w' = Created.
Proof.
  intros Hfail. rewrite startHappyServer_run, Hfail.
  eexists. repeat split.
Qed.

Lemma bind_failure_is_unhandled_witness :
  listen_outcome exhausted_env
  = BindFails (new_Error "listen EMFILE: too many open files")
  /\ exists w',
      startHappyServer exhausted_env sync_client initial_world = (Hang, w')
      /\ uncaught w' = [new_Error "listen EMFILE: too many open files"]
      /\ listen_calls w' = 1
      /\ server w' = Created.
Proof.
  split; [reflexivity|].
  exact (bind_failure_is_unhandled exhausted_env sync_client initial_world
           (new_Error "listen EMFILE: too many open files") eq_refl).
Defined.

(** C7, as stated, fails: the resolved url is not the bare
    [http://127.0.0.1:<port>]. On port 54321 it is
    [http://127.0.0.1:54321/]. *)
Lemma url_is_bare_origin_fails :
  ~ (forall env client w h w',
       startHappyServer env client w = (Val h, w') ->
       exists port,
         listen_outcome env = Bound port
         /\ port <> 0%N
         /\ url h = "http://127.0.0.1:" ++ decimal port).
Proof.
  intros claim.
  destruct (claim sample_env sync_client initial_world _ _ eq_refl)
    as [port [Hbound [_ Hurl]]].
  injection Hbound as <-. discriminate Hurl.
Qed.

(** C7, amended. Start resolves only after the listener has reported that
    it is bound, and the resolved url is the serialization of the URL
    parsed from [http://127.0.0.1:<port>], where [<port>] is the nonzero
    port the operating system assigned to the bound listener: exactly the
    string [http://127.0.0.1:<port>/], with the trailing slash of the root
    path, and [http://127.0.0.1/] when the port is 80, the default of the
    scheme. *)
Theorem start_resolves_with_loopback_url
    (env : Env) (client : ApiSessionClient) (w w' : World) (h : Handle) :
  assigns_nonzero_port env ->
  startHappyServer env client w = (Val h, w') ->
  exists port,
    listen_outcome env = Bound port
    /\ port <> 0%N
    /\ server w' = Listening port
    /\ url h = (if N.eqb port 80 then "http://127.0.0.1/"
                else "http://127.0.0.1:" ++ decimal port ++ "/")
    /\ url h <> "http://127.0.0.1:0/".
Proof.
  intros Hos Hrun.
  destruct (startHappyServer_resolved env client w w' h Hrun)
    as [port [Hb [_ [Hs ->]]]].
  exists port. split; [exact Hb|]. split; [exact (Hos port Hb)|].
  split; [exact Hs|]. split; [reflexivity|].
  cbn [url]. unfold loopback_url.
  destruct (N.eqb port 80); [discriminate|].
  intros Heq.
  change "http://127.0.0.1:0/" with ("http://127.0.0.1:" ++ "0" ++ "/") in Heq.
  apply append_inv_head in Heq. apply append_inv_tail in Heq.
  apply (f_equal NilEmpty.uint_of_string) in Heq.
  rewrite decimal_parses in Heq. injection Heq as Heq.
  apply (f_equal N.of_uint) in Heq. rewrite DecimalN.Unsigned.of_to in Heq.
  exact (Hos port Hb Heq).
Qed.

Lemma start_resolves_with_loopback_url_witness :
  assigns_nonzero_port sample_env
  /\ exists h w',
      startHappyServer sample_env sync_client initial_world = (Val h, w')
      /\ server w' = Listening 54321
      /\ url h = "http://127.0.0.1:54321/".
Proof.
  assert (Hos : assigns_nonzero_port sample_env).
  { intros port Hb. injection Hb as <-. discriminate. }
  split; [exact Hos|].
  do 2 eexists. split; [reflexivity|].
  destruct (start_resolves_with_loopback_url sample_env sync_client
              initial_world _ _ Hos eq_refl) as [port [Hb [_ [Hs [Hu _]]]]].
  injection Hb as <-. split; [exact Hs | exact Hu].
Defined.

(** C8. Whatever the session client, the [toolNames] of the handle start
    resolves with is the one-element sequence [["change_title"]]. *)
Theorem toolNames_is_change_title
    (env : Env) (client : ApiSessionClient) (w w' : World) (h : Handle) :
  startHappyServer env client w = (Val h, w') ->
  toolNames h = ["change_title"].
Proof.
  intros Hrun.
  destruct (startHappyServer_resolved env client w w' h Hrun)
    as [port [_ [_ [_ ->]]]].
  reflexivity.
Qed.

Lemma toolNames_is_change_title_witness :
  exists h w',
    startHappyServer sample_env async_failing_client initial_world = (Val h, w')
    /\ toolNames h = ["change_title"].
Proof.
  do 2 eexists. split; [reflexivity|].
  exact (toolNames_is_change_title sample_env async_failing_client
           initial_world _ _ eq_refl).
Defined.

(* ===================================================================== *)
(** ** Who talks to the session client *)
(* ===================================================================== *)

Section SendFrame.

Variable env : Env.
Variable client : ApiSessionClient.

Lemma title_changes_app (l1 l2 : list LogEntry) :
  title_changes (l1 ++ l2) = title_changes l1 + title_changes l2.
Proof.
  induction l1 as [|entry l1 IH]; [reflexivity|].
  cbn [app title_changes]. destruct entry; rewrite IH; reflexivity.
Qed.

Lemma sends_match_runs_refl (w : World) : sends_match_runs w w.
Proof. exists []. rewrite List.app_nil_r. cbn. split; [reflexivity|lia]. Qed.

Lemma callback_sends_match (w0 : World) (args : ChangeTitleArgs) (w : World) :
  sends_match_runs w0 w ->
  sends_match_runs w0 (snd (change_title_callback env client args w)).
Proof.
  intros [added [Hs Hl]]. destruct args as [ttl].
  exists (added ++ [summary_message env ttl w])%list.
  rewrite callback_run.
  by_send_outcome env client ttl w;
    cbn [snd sent log set_log set_sent set_uuids_drawn add_uncaught set_uncaught];
    rewrite Hs, List.app_assoc, !title_changes_app, Hl, List.length_app;
    cbn; split; try reflexivity; lia.
Qed.

Lemma request_body_sends_match (req : Exchange) (w : World) :
  sends_match_runs w (snd (request_body env client req w)).
Proof.
  rewrite request_body_run. cbn zeta.
  destruct (mcp_constructor_throws req); [apply sends_match_runs_refl|].
  destruct (transport_constructor_throws req);
    [exists []; rewrite List.app_nil_r; cbn; split; [reflexivity|lia]|].
  destruct (connect_outcome req) as [[]|e|];
    try (exists []; rewrite List.app_nil_r; cbn; split; [reflexivity|lia]).
  apply (run_script_invariant env client (sends_match_runs w)).
  - apply happy_mcp_tools.
  - intros status v Hv. unfold res_writeHead.
    destruct (headersSent (res v)); exact Hv.
  - intros chunk v Hv. unfold res_write. destruct (finished (res v)); exact Hv.
  - intros v Hv. unfold res_end. destruct (finished (res v)); exact Hv.
  - intros args v Hv. apply callback_sends_match. exact Hv.
  - exists []. rewrite List.app_nil_r. cbn. split; [reflexivity|lia].
Qed.

Lemma dispatch_sends_match (req : Exchange) (w : World) :
  sends_match_runs w (snd (dispatch env client req w)).
Proof.
  unfold dispatch, bind, modify. rewrite requestHandler_run.
  pose proof (request_body_sends_match req (set_res fresh_response w)) as H.
  destruct (request_body env client req (set_res fresh_response w))
    as [[[]|e|] w1]; cbn [snd] in *; try exact H.
  destruct H as [added [Hs Hl]]. exists added. unfold after_catch.
  destruct (headersSent (res w1)); cbn; rewrite ?title_changes_app; cbn;
    split; try assumption; cbn in Hl; lia.
Qed.

End SendFrame.

(** C10. The send capability of the session client is used only inside an
    execution of the [change_title] tool body: start hands the client
    nothing, stop (the closure of any handle) hands it nothing, and while a
    request is served the client is handed exactly one message per
    execution of the tool body, after the messages it already had. The
    client itself is only read, for its session identifier. *)
Theorem send_only_from_tool_body
    (env : Env) (client : ApiSessionClient) (w : World) :
  sent (snd (startHappyServer env client w)) = sent w
  /\ sent (snd (stop_server client w)) = sent w
  /\ (forall h w1 v,
        startHappyServer env client w = (Val h, w1) ->
        sent (snd (stop h v)) = sent v)
  /\ (forall req,
        let w' := snd (dispatch env client req w) in
        exists added,
          sent w' = (sent w ++ added)%list
          /\ title_changes (log w') = title_changes (log w) + length added).
Proof.
  split; [|split; [|split]].
  - apply startHappyServer_sent.
  - rewrite stop_server_run. cbn. destruct (server w); reflexivity.
  - intros h w1 v Hrun.
    destruct (startHappyServer_resolved env client w w1 h Hrun)
      as [port [_ [_ [_ ->]]]].
    cbn [stop]. rewrite stop_server_run. cbn. destruct (server v); reflexivity.
  - intros req. apply dispatch_sends_match.
Qed.

Example one_send_per_tool_run :
  let w := snd (serve sample_env sync_client
                  [tool_call_exchange (JString "A"); failing_exchange;
                   tool_call_exchange JNull; tool_call_exchange (JString "B")]
                  initial_world) in
  map summary (sent w) = ["[myhost] A"; "[myhost] B"]
  /\ title_changes (log w) = 2.
Proof. split; reflexivity. Qed.

(* ===================================================================== *)
(** ** Further properties of the tool body *)
(* ===================================================================== *)


(** X2. A call of the tool leaves the HTTP response, the listener, the
    count of [listen] calls and the registries and transports alone; the
    only unhandled error it can add is the rejection of the promise the
    send returned. *)
Theorem tool_body_frame
    (env : Env) (client : ApiSessionClient) (ttl : string) (w : World) :
  let w' := snd (change_title_callback env client (mkArgs ttl) w) in
  res w' = res w
  /\ server w' = server w
  /\ listen_calls w' = listen_calls w
  /\ next_object w' = next_object w
  /\ connections w' = connections w
  /\ uncaught w' =
     match send_outcome env client ttl w with
     | SendReturnsPromise (Rejects reason) => (uncaught w ++ [reason])%list
     | _ => uncaught w
     end.
Proof.
  cbn zeta. rewrite callback_run.
  by_send_outcome env client ttl w; repeat split.
Qed.

(** X3. The reason of a failure text is never empty: whenever the thrown
    value converts to a string, even to the empty one, something follows
    [Failed to change chat title: ]. *)
Theorem failure_reason_never_empty
    (env : Env) (client : ApiSessionClient) (ttl : string) (w : World)
    (e : JsValue) (converted : string) :
  send_outcome env client ttl w = SendThrows e ->
  String_ e = Some converted ->
  exists reason w',
    change_title_callback env client (mkArgs ttl) w
    = (Val (mkResult
              [mkBlock "text" ("Failed to change chat title: " ++ reason)]
              true), w')
    /\ reason <> EmptyString.
Proof.
  intros Hthrow Hconv. rewrite callback_run, Hthrow, Hconv.
  exists (or_else (Some converted) "Unknown error"). eexists.
  split; [reflexivity|]. cbn [or_else].
  destruct (String.eqb converted EmptyString) eqn:He; [discriminate|].
  apply String.eqb_neq. exact He.
Qed.

Lemma failure_reason_never_empty_witness :
  send_outcome sample_env mute_client "A" initial_world
  = SendThrows (JString EmptyString)
  /\ String_ (JString EmptyString) = Some EmptyString
  /\ exists reason w',
      change_title_callback sample_env mute_client (mkArgs "A") initial_world
      = (Val (mkResult
                [mkBlock "text" ("Failed to change chat title: " ++ reason)]
                true), w')
      /\ reason <> EmptyString.
Proof.
  split; [reflexivity|]. split; [reflexivity|].
  exact (failure_reason_never_empty sample_env mute_client "A" initial_world
           (JString EmptyString) EmptyString eq_refl eq_refl).
Defined.

(** X4. The answers identify the title. Two calls that return the same
    success result were made with the same title, and two calls that hand
    the client messages with the same summary were made with the same
    title: no title is mistaken for another. *)
Theorem title_is_identified
    (env : Env) (client : ApiSessionClient) (ttl1 ttl2 : string)
    (w1 w2 w1' w2' : World) (r1 r2 : CallToolResult) :
  change_title_callback env client (mkArgs ttl1) w1 = (Val r1, w1') ->
  change_title_callback env client (mkArgs ttl2) w2 = (Val r2, w2') ->
  (isError r1 = false -> r1 = r2 -> ttl1 = ttl2)
  /\ (forall m1 m2,
        sent w1' = (sent w1 ++ [m1])%list -> sent w2' = (sent w2 ++ [m2])%list ->
        summary m1 = summary m2 -> ttl1 = ttl2).
Proof.
  intros H1 H2. split.
  - intros Hok Heq. subst r2. revert H1 H2. rewrite !callback_run.
    destruct (send_outcome env client ttl1 w1) as [|[|reason1|]|e1];
      [| | | | destruct (String_ e1)];
      (destruct (send_outcome env client ttl2 w2) as [|[|reason2|]|e2];
       [| | | | destruct (String_ e2)]);
      intros H1 H2; try discriminate H1; try discriminate H2;
      injection H1 as <- _; try discriminate Hok;
      injection H2 as H2 _; try discriminate H2;
      unfold success_text in H2;
      repeat (apply append_inv_head in H2);
      apply append_inv_tail in H2; congruence.
  - intros m1 m2 Hs1 Hs2 Hsum.
    pose proof (callback_frame env client (mkArgs ttl1) w1) as F1.
    pose proof (callback_frame env client (mkArgs ttl2) w2) as F2.
    cbn zeta in F1, F2. rewrite H1 in F1. rewrite H2 in F2. cbn [snd title] in *.
    destruct F1 as [_ [_ [_ [F1 _]]]]. destruct F2 as [_ [_ [_ [F2 _]]]].
    rewrite F1 in Hs1. rewrite F2 in Hs2.
    apply List.app_inv_head in Hs1. apply List.app_inv_head in Hs2.
    injection Hs1 as <-. injection Hs2 as <-.
    cbn [summary summary_message] in Hsum.
    repeat (apply append_inv_head in Hsum). exact Hsum.
Qed.

Lemma title_is_identified_witness :
  exists r1 r2 w1' w2',
    change_title_callback sample_env sync_client (mkArgs "A") initial_world
    = (Val r1, w1')
    /\ change_title_callback sample_env sync_client (mkArgs "B") w1' = (Val r2, w2')
    /\ (isError r1 = false -> r1 = r2 -> "A" = "B")
    /\ (forall m1 m2,
          sent w1' = (sent initial_world ++ [m1])%list ->
          sent w2' = (sent w1' ++ [m2])%list ->
          summary m1 = summary m2 -> "A" = "B").
Proof.
  do 4 eexists. split; [reflexivity|]. split; [reflexivity|].
  exact (title_is_identified sample_env sync_client "A" "B" _ _ _ _ _ _
           eq_refl eq_refl).
Defined.

(* ===================================================================== *)
(** ** The messages of a run of requests *)
(* ===================================================================== *)

Section RunMessages.

Variable env : Env.
Variable client : ApiSessionClient.

Lemma messages_from_app (n : nat) (l1 l2 : list string) :
  messages_from env n (l1 ++ l2)
  = (messages_from env n l1 ++ messages_from env (n + length l1) l2)%list.
Proof.
  revert n. induction l1 as [|ttl l1 IH]; intros n; cbn [app messages_from length].
  - rewrite Nat.add_0_r. reflexivity.
  - rewrite IH. cbn [app]. rewrite Nat.add_succ_r. reflexivity.
Qed.

Lemma sent_since_refl (w : World) : sent_since env w w.
Proof.
  exists []. cbn. rewrite List.app_nil_r, Nat.add_0_r. split; reflexivity.
Qed.

Lemma sent_since_trans (w0 w1 w2 : World) :
  sent_since env w0 w1 -> sent_since env w1 w2 -> sent_since env w0 w2.
Proof.
  intros [l1 [Hs1 Hd1]] [l2 [Hs2 Hd2]]. exists (l1 ++ l2)%list.
  rewrite Hs2, Hs1, Hd2, Hd1, messages_from_app, List.length_app,
    <- List.app_assoc.
  split; [reflexivity | lia].
Qed.

Lemma callback_sent_since (args : ChangeTitleArgs) (w : World) :
  sent_since env w (snd (change_title_callback env client args w)).
Proof.
  destruct (callback_frame env client args w) as [_ [_ [_ [Hs Hd]]]].
  exists [title args]. cbn [messages_from length]. rewrite Hs, Hd.
  split; [reflexivity | lia].
Qed.

(** Same sends and draws: nothing was handed to the client in between. *)
Lemma sent_since_same (w0 w w' : World) :
  sent w' = sent w -> uuids_drawn w' = uuids_drawn w ->
  sent_since env w0 w -> sent_since env w0 w'.
Proof. intros Hs Hd [l [H1 H2]]. exists l. rewrite Hs, Hd. auto. Qed.

Lemma request_body_sent_since (req : Exchange) (w : World) :
  sent_since env w (snd (request_body env client req w)).
Proof.
  rewrite request_body_run. cbn zeta.
  destruct (mcp_constructor_throws req); [apply sent_since_refl|].
  destruct (transport_constructor_throws req);
    [apply (sent_since_same w w); auto using sent_since_refl|].
  destruct (connect_outcome req) as [[]|e|];
    [| apply (sent_since_same w w); auto using sent_since_refl ..].
  apply (run_script_invariant env client (sent_since env w)).
  - apply happy_mcp_tools.
  - intros status v Hv. unfold res_writeHead.
    destruct (headersSent (res v)); exact Hv.
  - intros chunk v Hv. unfold res_write. destruct (finished (res v)); exact Hv.
  - intros v Hv. unfold res_end. destruct (finished (res v)); exact Hv.
  - intros args v Hv. apply (sent_since_trans w v); [exact Hv|].
    apply callback_sent_since.
  - apply (sent_since_same w w); auto using sent_since_refl.
Qed.

Lemma dispatch_sent_since (req : Exchange) (w : World) :
  sent_since env w (snd (dispatch env client req w)).
Proof.
  unfold dispatch, bind, modify. rewrite requestHandler_run.
  pose proof (request_body_sent_since req (set_res fresh_response w)) as H.
  destruct (request_body env client req (set_res fresh_response w))
    as [[[]|e|] w1]; cbn [snd] in *;
    try (apply (sent_since_same w w1); [reflexivity | reflexivity | exact H]).
  apply (sent_since_same w w1); [| | exact H];
    unfold after_catch; destruct (headersSent (res w1)); reflexivity.
Qed.

Lemma serve_sent_since (reqs : list Exchange) (w : World) :
  sent_since env w (snd (serve env client reqs w)).
Proof.
  revert w. induction reqs as [|req rest IH]; intros w; [apply sent_since_refl|].
  cbn [serve].
  pose proof (dispatch_sent_since req w) as H1.
  destruct (dispatch env client req w) as [c w1]. cbn [snd] in H1.
  specialize (IH w1).
  destruct (serve env client rest w1) as [answers w2]. cbn [snd] in *.
  apply (sent_since_trans w w1 w2); assumption.
Qed.

Lemma messages_from_shape (n : nat) (titles : list string) :
  Forall (fun m => type m = "summary"
                   /\ exists ttl, summary m = "[" ++ hostname env ++ "] " ++ ttl)
         (messages_from env n titles).
Proof.
  revert n. induction titles as [|ttl rest IH]; intros n; cbn [messages_from];
    constructor; [|apply IH].
  split; [reflexivity|]. exists ttl. reflexivity.
Qed.

Lemma messages_from_uuids (n : nat) (titles : list string) (u : string) :
  In u (map leafUuid (messages_from env n titles)) ->
  exists k, n <= k < n + length titles /\ u = uuid_supply env k.
Proof.
  revert n. induction titles as [|ttl rest IH]; intros n; cbn; [contradiction|].
  intros [<-|Hin].
  - exists n. split; [lia | reflexivity].
  - destruct (IH (S n) Hin) as [k [Hk ->]]. exists k. split; [lia | reflexivity].
Qed.

Lemma messages_from_NoDup (n : nat) (titles : list string) :
  (forall i j, uuid_supply env i = uuid_supply env j -> i = j) ->
  NoDup (map leafUuid (messages_from env n titles)).
Proof.
  intros Hinj. revert n.
  induction titles as [|ttl rest IH]; intros n; cbn; constructor; [|apply IH].
  intros Hin. destruct (messages_from_uuids (S n) rest _ Hin) as [k [Hk Heq]].
  apply Hinj in Heq. lia.
Qed.

End RunMessages.

(** X5. Over any run of requests the session client is handed only
    messages of type [summary] whose text is a title prefixed with
    [[<hostname>] ]; the messages come after those it already had, in the
    order of the calls, each with the identifier of its own [randomUUID()]
    draw, and the generator is drawn from for nothing else. *)
Theorem run_sends_only_summaries
    (env : Env) (client : ApiSessionClient) (reqs : list Exchange) (w : World) :
  let w' := snd (serve env client reqs w) in
  exists titles,
    sent w' = (sent w ++ messages_from env (uuids_drawn w) titles)%list
    /\ uuids_drawn w' = uuids_drawn w + length titles
    /\ Forall (fun m => type m = "summary"
                        /\ exists ttl, summary m = "[" ++ hostname env ++ "] " ++ ttl)
              (messages_from env (uuids_drawn w) titles).
Proof.
  cbn zeta. destruct (serve_sent_since env client reqs w) as [titles [Hs Hd]].
  exists titles. repeat split; try assumption. apply messages_from_shape.
Qed.

(** X6. If the generator never repeats itself, the messages handed to the
    client over any run of requests carry pairwise distinct [leafUuid]s,
    none of which was generated before the run. *)
Theorem run_leafUuids_distinct
    (env : Env) (client : ApiSessionClient) (reqs : list Exchange) (w : World) :
  (forall i j, uuid_supply env i = uuid_supply env j -> i = j) ->
  exists added,
    sent (snd (serve env client reqs w)) = (sent w ++ added)%list
    /\ NoDup (map leafUuid added)
    /\ forall n, n < uuids_drawn w ->
                 ~ In (uuid_supply env n) (map leafUuid added).
Proof.
  intros Hinj.
  destruct (serve_sent_since env client reqs w) as [titles [Hs _]].
  exists (messages_from env (uuids_drawn w) titles).
  split; [exact Hs|]. split; [apply messages_from_NoDup; exact Hinj|].
  intros n Hn Hin.
  destruct (messages_from_uuids env _ _ _ Hin) as [k [Hk Heq]].
  apply Hinj in Heq. lia.
Qed.

Lemma sample_uuid_supply_injective (i j : nat) :
  uuid_supply sample_env i = uuid_supply sample_env j -> i = j.
Proof.
  cbn [uuid_supply sample_env]. intros H. apply append_inv_head in H.
  apply (f_equal NilEmpty.uint_of_string) in H.
  rewrite !decimal_parses in H. injection H as H.
  apply (f_equal N.of_uint) in H. rewrite !DecimalN.Unsigned.of_to in H.
  apply Nat2N.inj. exact H.
Defined.

Lemma run_leafUuids_distinct_witness :
  exists added,
    sent (snd (serve sample_env sync_client
                 [tool_call_exchange (JString "A"); failing_exchange;
                  tool_call_exchange (JString "B")] initial_world))
    = (sent initial_world ++ added)%list
    /\ NoDup (map leafUuid added).
Proof.
  destruct (run_leafUuids_distinct sample_env sync_client
              [tool_call_exchange (JString "A"); failing_exchange;
               tool_call_exchange (JString "B")] initial_world
              sample_uuid_supply_injective) as [added [Hs [Hnd _]]].
  exists added. split; assumption.
Defined.

(* ===================================================================== *)
(** ** The registry of a request *)
(* ===================================================================== *)

(** X7. The registry [createMcpServer] returns runs a tool body only for a
    call of [change_title] whose [title] is a string: a call of any other
    name, or with any other kind of title, is refused without sending,
    logging or changing anything; a valid call runs the callback on that
    title, once, and hands the transport what the callback returned or
    threw, in the world the callback left. *)
Theorem registry_runs_only_change_title
    (env : Env) (client : ApiSessionClient) (req : Exchange) (w w1 : World)
    (mcp : McpServer) :
  createMcpServer env client req w = (Val mcp, w1) ->
  (forall name arg v,
     name <> "change_title" \/ (forall s, arg <> JString s) ->
     call_tool mcp name arg v = (Val ToolRefused, v))
  /\ (forall s v,
        call_tool mcp "change_title" (JString s) v
        = match change_title_callback env client (mkArgs s) v with
          | (Val r, v') => (Val (ToolReturned r), v')
          | (Exn e, v') => (Val (ToolThrew e), v')
          | (Hang, v') => (Hang, v')
          end).
Proof.
  rewrite createMcpServer_run.
  destruct (mcp_constructor_throws req) as [e|]; [discriminate|].
  intros H. injection H as <- _. split.
  - intros name arg v Hbad. unfold call_tool. cbn [happy_mcp tools find_tool].
    destruct (String.eqb_spec "change_title" name) as [<-|Hne].
    + destruct Hbad as [Hname|Harg]; [contradiction|].
      cbn [inputSchema parse_args].
      destruct arg; try reflexivity. exfalso. exact (Harg s eq_refl).
    + reflexivity.
  - intros s v.
    unfold call_tool. cbn [happy_mcp tools find_tool].
    rewrite String.eqb_refl. cbn [inputSchema parse_args callback].
    unfold try_catch, bind.
    destruct (change_title_callback env client (mkArgs s) v) as [[r|e|] v'];
      reflexivity.
Qed.

Lemma registry_runs_only_change_title_witness :
  exists mcp w1,
    createMcpServer sample_env sync_client (tool_call_exchange JNull) initial_world
    = (Val mcp, w1)
    /\ call_tool mcp "change_title" JNull w1 = (Val ToolRefused, w1)
    /\ call_tool mcp "rename" (JString "A") w1 = (Val ToolRefused, w1).
Proof.
  do 2 eexists. split; [reflexivity|].
  destruct (registry_runs_only_change_title sample_env sync_client
              (tool_call_exchange JNull) initial_world _ _ eq_refl) as [Hbad _].
  split; apply Hbad.
  - right. intros s. discriminate.
  - left. discriminate.
Defined.

(* ===================================================================== *)
(** ** The life cycle of the listener *)
(* ===================================================================== *)

Section ListenerState.

Variable env : Env.
Variable client : ApiSessionClient.

(** Serving a request does not touch the listener. *)
Lemma dispatch_listener (req : Exchange) (w : World) :
  let w' := snd (dispatch env client req w) in
  server w' = server w /\ listen_calls w' = listen_calls w.
Proof.
  cbn zeta. unfold dispatch, bind, modify. rewrite requestHandler_run.
  assert (H : let v := snd (request_body env client req (set_res fresh_response w)) in
              server v = server w /\ listen_calls v = listen_calls w).
  { cbn zeta. rewrite request_body_run. cbn zeta.
    destruct (mcp_constructor_throws req); [auto|].
    destruct (transport_constructor_throws req); [auto|].
    destruct (connect_outcome req) as [[]|e|]; [|auto ..].
    apply (run_script_invariant env client
             (fun v => server v = server w /\ listen_calls v = listen_calls w)).
    - apply happy_mcp_tools.
    - intros status v Hv. unfold res_writeHead.
      destruct (headersSent (res v)); exact Hv.
    - intros chunk v Hv. unfold res_write. destruct (finished (res v)); exact Hv.
    - intros v Hv. unfold res_end. destruct (finished (res v)); exact Hv.
    - intros [ttl] v [Hs Hl]. rewrite callback_run.
      by_send_outcome env client ttl v; auto.
    - auto. }
  cbn zeta in H.
  destruct (request_body env client req (set_res fresh_response w))
    as [[[]|e|] w1]; cbn [snd] in *; try exact H.
  unfold after_catch. destruct (headersSent (res w1)); exact H.
Qed.

Lemma serve_listener (reqs : list Exchange) (w : World) :
  let w' := snd (serve env client reqs w) in
  server w' = server w /\ listen_calls w' = listen_calls w.
Proof.
  revert w. induction reqs as [|req rest IH]; intros w; [cbn; auto|].
  cbn zeta. cbn [serve].
  pose proof (dispatch_listener req w) as H1. cbn zeta in H1.
  destruct (dispatch env client req w) as [c w1]. cbn [snd] in H1.
  specialize (IH w1). cbn zeta in IH.
  destruct (serve env client rest w1) as [answers w2]. cbn [snd] in *.
  destruct H1 as [<- <-]. exact IH.
Qed.

End ListenerState.

(** X8. The life cycle of the listener. Once start has resolved the
    server listens on the reported port; serving any run of requests leaves
    it listening there and calls [listen] no more; [stop] then returns
    without throwing, logs the stop and closes the server; a second [stop]
    also returns and leaves the server closed. *)
Theorem listener_life_cycle
    (env : Env) (client : ApiSessionClient) (reqs : list Exchange)
    (w w1 : World) (h : Handle) :
  startHappyServer env client w = (Val h, w1) ->
  exists port w3 w4,
    server w1 = Listening port
    /\ server (snd (serve env client reqs w1)) = Listening port
    /\ listen_calls (snd (serve env client reqs w1)) = listen_calls w1
    /\ stop h (snd (serve env client reqs w1)) = (Val tt, w3)
    /\ server w3 = Closed
    /\ log w3 = (log (snd (serve env client reqs w1))
                   ++ [LogStop (sessionId client)])%list
    /\ stop h w3 = (Val tt, w4)
    /\ server w4 = Closed.
Proof.
  intros Hrun.
  destruct (startHappyServer_resolved env client w w1 h Hrun)
    as [port [_ [_ [Hs ->]]]].
  destruct (serve_listener env client reqs w1) as [Hserver Hcalls].
  cbn zeta in Hserver, Hcalls. rewrite Hs in Hserver.
  exists port. do 2 eexists. cbn [stop].
  split; [exact Hs|]. split; [exact Hserver|]. split; [exact Hcalls|].
  split; [apply stop_server_run|]. cbn zeta. rewrite Hserver.
  split; [reflexivity|]. split; [reflexivity|].
  split; [apply stop_server_run|]. reflexivity.
Qed.

Lemma listener_life_cycle_witness :
  exists h w1 w3,
    startHappyServer sample_env sync_client initial_world = (Val h, w1)
    /\ stop h (snd (serve sample_env sync_client
                      [tool_call_exchange (JString "A"); failing_exchange] w1))
       = (Val tt, w3)
    /\ server w3 = Closed.
Proof.
  do 2 eexists.
  destruct (listener_life_cycle sample_env sync_client
              [tool_call_exchange (JString "A"); failing_exchange]
              initial_world _ _ eq_refl)
    as [port [w3 [w4 [_ [_ [_ [Hstop [Hclosed _]]]]]]]].
  exists w3. split; [reflexivity|]. split; assumption.
Defined.

(** X9. Whatever the listener reports, start calls [listen] exactly once,
    builds no registry and no transport, connects nothing, draws no
    identifier and leaves the response alone; when it resolves it has
    logged the start and then the ready line with the url of the handle,
    and has left no unhandled error. *)
Theorem start_listens_once
    (env : Env) (client : ApiSessionClient) (w : World) :
  let w' := snd (startHappyServer env client w) in
  listen_calls w' = S (listen_calls w)
  /\ next_object w' = next_object w
  /\ connections w' = connections w
  /\ uuids_drawn w' = uuids_drawn w
  /\ res w' = res w
  /\ (forall h, fst (startHappyServer env client w) = Val h ->
                log w' = (log w ++ [LogStart (sessionId client);
                                    LogReady (sessionId client) (url h)])%list
                /\ uncaught w' = uncaught w).
Proof.
  cbn zeta. rewrite startHappyServer_run.
  destruct (listen_outcome env) as [port|e].
  - cbn zeta.
    destruct (Url.parse ("http://127.0.0.1:" ++ decimal port)) as [u|];
      cbn [fst snd].
    + repeat split.
      match goal with Hh : Val _ = Val _ |- _ => injection Hh as <- end.
      cbn. rewrite <- List.app_assoc. reflexivity.
    + repeat split; discriminate.
  - cbn [fst snd]. repeat split; discriminate.
Qed.

(* ===================================================================== *)
(** ** The answers of a run of requests *)
(* ===================================================================== *)

Section RunAnswers.

Variable env : Env.
Variable client : ApiSessionClient.

(** The response a request is left with is blank unless its headers are
    out. *)
Lemma dispatch_blank (req : Exchange) (w : World) :
  unsent_is_blank (res (snd (dispatch env client req w))).
Proof.
  unfold dispatch, bind, modify. rewrite requestHandler_run.
  pose proof (request_body_blank env client req (set_res fresh_response w)) as H.
  assert (Hb : unsent_is_blank (res (snd (request_body env client req
                                            (set_res fresh_response w))))).
  { apply H. intros _. split; reflexivity. }
  destruct (request_body env client req (set_res fresh_response w))
    as [[[]|e|] w1]; cbn [snd] in *; try exact Hb.
  unfold after_catch. destruct (headersSent (res w1)) eqn:Hs; cbn.
  - exact Hb.
  - intros Hx. discriminate Hx.
Qed.

End RunAnswers.

(** X10. Over any run of requests every request gets its answer, no call
    of the request listener ends with an exception, and every response is
    left either with its headers sent or untouched: without body and not
    ended. *)
Theorem run_never_throws
    (env : Env) (client : ApiSessionClient) (reqs : list Exchange) (w : World) :
  length (fst (serve env client reqs w)) = length reqs
  /\ Forall (fun a => (forall e, fst a <> Exn e) /\ unsent_is_blank (snd a))
            (fst (serve env client reqs w)).
Proof.
  revert w. induction reqs as [|req rest IH]; intros w; cbn [serve].
  - split; [reflexivity | constructor].
  - pose proof (dispatch_blank env client req w) as Hb.
    assert (Hn : forall e, fst (dispatch env client req w) <> Exn e).
    { intros e. unfold dispatch, bind, modify.
      apply (requestHandler_never_throws env client req (set_res fresh_response w)). }
    destruct (dispatch env client req w) as [c w1]. cbn [fst snd] in *.
    destruct (IH w1) as [Hlen Hall].
    destruct (serve env client rest w1) as [answers w2]. cbn [fst length] in *.
    split; [rewrite Hlen; reflexivity|].
    constructor; [split; assumption | exact Hall].
Qed.

(** X11. When the handling of a request throws, the error is logged once,
    after whatever the handling had logged, the response always ends up
    with its headers sent, and the catch clause hands nothing to the
    session client and builds nothing. *)
Theorem thrown_request_is_logged
    (env : Env) (client : ApiSessionClient) (req : Exchange) (w w1 : World)
    (e : JsValue) :
  request_body env client req (set_res fresh_response w) = (Exn e, w1) ->
  let w2 := snd (dispatch env client req w) in
  log w2 = (log w1 ++ [LogRequestError e])%list
  /\ headersSent (res w2) = true
  /\ sent w2 = sent w1
  /\ next_object w2 = next_object w1
  /\ connections w2 = connections w1
  /\ uncaught w2 = uncaught w1.
Proof.
  intros Hbody. cbn zeta. unfold dispatch, bind, modify.
  rewrite requestHandler_run, Hbody. cbn [snd]. unfold after_catch.
  destruct (headersSent (res w1)) eqn:Hs; cbn; rewrite ?Hs; repeat split.
Qed.

Lemma thrown_request_is_logged_witness :
  exists w1,
    request_body sample_env sync_client failing_exchange
      (set_res fresh_response initial_world)
    = (Exn (new_Error "no transport"), w1)
    /\ log (snd (dispatch sample_env sync_client failing_exchange initial_world))
       = [LogRequestError (new_Error "no transport")].
Proof.
  eexists. split; [reflexivity|].
  exact (proj1 (thrown_request_is_logged sample_env sync_client failing_exchange
                  initial_world _ (new_Error "no transport") eq_refl)).
Defined.
